(** * The Spotify "recently played" pipeline: extract, validate, aggregate, load

    A shallow embedding of the repository's Python modules

      - [spotify_data_extractor.py]     (module [Extractor])
      - [data_processing.py]            (modules [DataProcessing],
                                         [DataProcessingScript])
      - [Dags/spotify_etl.py]           (module [SpotifyEtl])
      - [load_music_data_to_postgres.py] (module [Loader])
      - [Dags/spotify_etl_dag.py]       (module [Dag])
      - [drop_tables.py]                (module [DropTables])

    together with the small parts of Python, pandas and the relational store
    they rest on (modules [Py], [Pandas], [Sql]).  Exceptions are values of
    [Py.exn] carried by [Py.result]; logging and printing are carried by a
    writer over [Py.result].

    Where the libraries changed their behaviour between versions, pandas is
    followed as before 2.0 (the dtype of a column without cells, the
    statements of [to_sql] that are committed on their own), and the store
    says whether its engine is SQLAlchemy before 2.0 (field [plain_sql]).
    The store is PostgreSQL behind psycopg2. *)

From Stdlib Require Import List String Ascii Bool Arith Lia.
From Stdlib Require Import Permutation Sorted OrderedTypeEx.
Import ListNotations.
Local Open Scope string_scope.
Local Open Scope list_scope.
Set Warnings "-register-all".

(* ===================================================================== *)
(** ** Python values and exceptions *)
(* ===================================================================== *)

Module Py.

(** The Python objects a parsed JSON document of the "recently played"
    endpoint is built from at the places the pipeline reads: [None], [str],
    [list] and [dict] (a dict as its list of bindings, looked up from the
    front).  Strings are sequences of characters as [String.string]. *)
Inductive pyobj : Type :=
| PNone
| PStr (s : string)
| PList (l : list pyobj)
| PDict (kvs : list (string * pyobj)).

(** Exception classes the pipeline raises or meets.  [Exception_] is the bare
    [Exception] that [Data_Quality] raises, with its message; a [ValueError]
    carries its message, or for a formatted or non-English message a short
    English rendering of it; [KeyError] carries the missing key; [StoreError]
    stands for whatever the database driver raises, with a description. *)
Inductive exn : Type :=
| Exception_ (msg : string)
| ValueError (msg : string)
| KeyError (key : string)
| IndexError
| TypeError
| AttributeError
| RequestException
| ConnectionError
| RuntimeError
| StoreError (what : string).

Inductive result (A : Type) : Type :=
| Ok (a : A)
| Raise (e : exn).
Arguments Ok {A} a.
Arguments Raise {A} e.

Definition bind {A B} (m : result A) (k : A -> result B) : result B :=
  match m with
  | Ok a => k a
  | Raise e => Raise e
  end.

Fixpoint lookup (k : string) (kvs : list (string * pyobj)) : option pyobj :=
  match kvs with
  | [] => None
  | (k', v) :: rest => if String.eqb k k' then Some v else lookup k rest
  end.

(** [o[k]] for a string key [k]. *)
Definition getitem (o : pyobj) (k : string) : result pyobj :=
  match o with
  | PDict kvs =>
      match lookup k kvs with
      | Some v => Ok v
      | None => Raise (KeyError k)
      end
  | _ => Raise TypeError
  end.

(** [o[0]].  A dict parsed from JSON has string keys only, so [d[0]] is a
    [KeyError]. *)
Definition getitem0 (o : pyobj) : result pyobj :=
  match o with
  | PList (x :: _) => Ok x
  | PList [] => Raise IndexError
  | PStr (String c _) => Ok (PStr (String c EmptyString))
  | PStr EmptyString => Raise IndexError
  | PDict _ => Raise (KeyError "0")
  | PNone => Raise TypeError
  end.

(** [o[:10]].  (A dict cannot be sliced: [TypeError] before Python 3.12.) *)
Definition slice10 (o : pyobj) : result pyobj :=
  match o with
  | PStr s => Ok (PStr (substring 0 10 s))
  | PList l => Ok (PList (firstn 10 l))
  | PDict _ => Raise TypeError
  | PNone => Raise TypeError
  end.

Fixpoint chars (s : string) : list pyobj :=
  match s with
  | EmptyString => []
  | String c s' => PStr (String c EmptyString) :: chars s'
  end.

(** The items a [for] loop over [o] visits. *)
Definition iter (o : pyobj) : result (list pyobj) :=
  match o with
  | PList l => Ok l
  | PStr s => Ok (chars s)
  | PDict kvs => Ok (map (fun kv => PStr (fst kv)) kvs)
  | PNone => Raise TypeError
  end.

(** [data.get(k, [])]: only a dict has the method. *)
Definition get_or_empty (o : pyobj) (k : string) : result pyobj :=
  match o with
  | PDict kvs =>
      match lookup k kvs with
      | Some v => Ok v
      | None => Ok (PList [])
      end
  | _ => Raise AttributeError
  end.

Definition is_str (o : pyobj) (k : string) : bool :=
  match o with
  | PStr s => String.eqb s k
  | _ => false
  end.

(** [k in o]. *)
Definition contains (o : pyobj) (k : string) : result bool :=
  match o with
  | PDict kvs =>
      Ok (match lookup k kvs with Some _ => true | None => false end)
  | PList l => Ok (existsb (fun x => is_str x k) l)
  | PStr s => Ok (match index 0 k s with Some _ => true | None => false end)
  | PNone => Raise TypeError
  end.

(** [pandas.isnull] on one cell. *)
Definition isnull (o : pyobj) : bool :=
  match o with
  | PNone => true
  | _ => false
  end.

Definition hashable (o : pyobj) : bool :=
  match o with
  | PNone | PStr _ => true
  | PList _ | PDict _ => false
  end.

(** Equality of hashable cells, as the hash tables of pandas see it. *)
Definition cell_eqb (a b : pyobj) : bool :=
  match a, b with
  | PNone, PNone => true
  | PStr s, PStr t => String.eqb s t
  | _, _ => false
  end.

(** A cell of a playback event: a [str], or [None] for a JSON [null]. *)
Definition is_text (o : pyobj) : bool :=
  match o with
  | PNone | PStr _ => true
  | _ => false
  end.

End Py.

Import Py.

Declare Scope result_scope.
Delimit Scope result_scope with res.
Notation "x <- m ;; k" := (Py.bind m (fun x => k))
  (at level 61, m at next level, right associativity) : result_scope.

(* ===================================================================== *)
(** ** The fragment of pandas the pipeline uses *)
(* ===================================================================== *)

(** A row of the events frame, columns [song_name], [artist_name],
    [played_at], [timestamp]. *)
Module Events.
Record row : Type := mk
  { song_name : pyobj;
    artist_name : pyobj;
    played_at : pyobj;
    timestamp : pyobj }.
End Events.

(** A row of the aggregate frame, columns [ID], [timestamp], [artist_name],
    [count]. *)
Module Fav.
Record row : Type := mk
  { ID : string;
    timestamp : string;
    artist_name : string;
    count : nat }.
End Fav.

Module Pandas.

(** A frame is the list of its rows; [pd.DataFrame()] and a frame with
    columns and no rows are both [[]] ([.empty] is true of both). *)
Definition DataFrame : Type := list Events.row.

Definition empty (df : DataFrame) : bool :=
  match df with
  | [] => true
  | _ :: _ => false
  end.

Fixpoint zip4 (s a p t : list pyobj) : DataFrame :=
  match s, a, p, t with
  | x :: s', y :: a', z :: p', w :: t' => Events.mk x y z w :: zip4 s' a' p' t'
  | _, _, _, _ => []
  end.

(** [pd.DataFrame({"song_name": s, "artist_name": a, "played_at": p,
    "timestamp": t})]: columns of different lengths are a [ValueError]. *)
Definition of_columns (s a p t : list pyobj) : result DataFrame :=
  if ((List.length s =? List.length a) && (List.length a =? List.length p)
      && (List.length p =? List.length t))%nat
  then Ok (zip4 s a p t)
  else Raise (ValueError "All arrays must be of the same length").

Fixpoint nodupb (l : list pyobj) : bool :=
  match l with
  | [] => true
  | x :: l' => negb (existsb (cell_eqb x) l') && nodupb l'
  end.

(** [Series.is_unique]: hashing a list or dict cell is a [TypeError]. *)
Definition is_unique (col : list pyobj) : result bool :=
  if forallb hashable col then Ok (nodupb col) else Raise TypeError.

Definition row_isnull (r : Events.row) : bool :=
  isnull (Events.song_name r) || isnull (Events.artist_name r)
  || isnull (Events.played_at r) || isnull (Events.timestamp r).

(** [df.isnull().values.any()]. *)
Definition isnull_any (df : DataFrame) : bool := existsb row_isnull df.

(** *** groupby(['timestamp', 'artist_name'], as_index=False) *)

Definition key : Type := (string * string)%type.

Definition key_compare (k1 k2 : key) : comparison :=
  match String.compare (fst k1) (fst k2) with
  | Eq => String.compare (snd k1) (snd k2)
  | c => c
  end.

Definition key_eqb (k1 k2 : key) : bool :=
  String.eqb (fst k1) (fst k2) && String.eqb (snd k1) (snd k2).

(** The group key of a row; [None] when a key cell is null (pandas drops
    such rows, [dropna=True] being the default). *)
Definition row_key (r : Events.row) : option key :=
  match Events.timestamp r, Events.artist_name r with
  | PStr t, PStr a => Some (t, a)
  | _, _ => None
  end.

Definition keys_hashable (df : DataFrame) : bool :=
  forallb (fun r => hashable (Events.timestamp r) && hashable (Events.artist_name r)) df.

(** Insertion into the ascending list of distinct keys ([sort=True]). *)
Fixpoint insert_key (k : key) (ks : list key) : list key :=
  match ks with
  | [] => [k]
  | k' :: ks' =>
      match key_compare k k' with
      | Lt => k :: ks
      | Eq => ks
      | Gt => k' :: insert_key k ks'
      end
  end.

Fixpoint sorted_keys (df : DataFrame) : list key :=
  match df with
  | [] => []
  | r :: df' =>
      match row_key r with
      | Some k => insert_key k (sorted_keys df')
      | None => sorted_keys df'
      end
  end.

Definition has_key (k : key) (r : Events.row) : bool :=
  match row_key r with
  | Some k' => key_eqb k k'
  | None => false
  end.

Definition group (k : key) (df : DataFrame) : DataFrame := filter (has_key k) df.

(** The groups, in ascending key order, each with its rows. *)
Definition groupby (df : DataFrame) : result (list (key * DataFrame)) :=
  if keys_hashable df
  then Ok (map (fun k => (k, group k df)) (sorted_keys df))
  else Raise TypeError.

(** [.count()] of one column of a group: its non-null cells. *)
Definition count_notnull (col : Events.row -> pyobj) (g : DataFrame) : nat :=
  List.length (filter (fun r => negb (isnull (col r))) g).

(** [.size()] of a group. *)
Definition size (g : DataFrame) : nat := List.length g.

(** *** Column dtypes

    The extractors build their frame from four Python lists.  A column made
    from a list of [str] and [None] is of dtype [object]; a column made from
    the empty list is of dtype [float64] (pandas before 2.0).  [groupby]
    keeps the dtype of its key columns.  (The frame without rows that the
    aggregators can be given is the one of an extractor, which has its four
    columns; [pd.DataFrame()] is only ever returned to the DAG task.) *)
Inductive dtype : Type := object | float64.

Definition dtype_of (df : DataFrame) : dtype :=
  if empty df then float64 else object.

(** [Series.astype(str)]. *)
Definition astype_str (d : dtype) : dtype := object.

(** [column + "-"]: concatenation, cell by cell, on a column of strings; a
    [TypeError] on a [float64] column, also when it has no cell. *)
Definition add_str (d : dtype) : result unit :=
  match d with
  | object => Ok tt
  | float64 => Raise TypeError
  end.

End Pandas.

Import Pandas.

(* ===================================================================== *)
(** ** Output: the logger and [print] *)
(* ===================================================================== *)

Module IO.

Inductive level : Type := INFO | WARNING | ERROR | STDOUT.

(** One constructor per logging or printing call of the sources, named after
    what the (mostly Russian) text says; the formatted values are arguments. *)
Inductive message : Type :=
(* Dags/spotify_etl.py *)
| ExtractionStarted                      (* l.50 *)
| ApiRequestFailed                       (* l.74 *)
| ItemSkipped (key : string)             (* l.91 *)
| Extracted (n : nat)                    (* l.101 *)
| QualityCheckStarted                    (* l.119 *)
| FrameIsEmpty                           (* l.122 *)
| QualityCheckPassed                     (* l.132 *)
| TransformStarted                       (* l.151 *)
| TransformDone (n : nat)                (* l.163 *)
| EtlStarted                             (* l.178 *)
| EtlAborted                             (* l.186 *)
| EtlDone (raw transformed : nat)        (* l.193 *)
| PrintedFrame (f : list Fav.row)        (* l.194 *)
| EtlFailed (e : exn)                    (* l.199 *)
(* data_processing.py *)
| NoSongsExtracted                       (* l.20 *)
(* Dags/spotify_etl_dag.py *)
| DagStarted                             (* l.57 *)
| NoDataSkipLoad                         (* l.63 *)
| DagExtractionFailed (e : exn)          (* l.66 *)
| DagLoaded (n : nat)                    (* l.89 *)
| DagLoadFailed (e : exn)                (* l.91 *)
(* load_music_data_to_postgres.py *)
| TablesCreated                          (* l.66 *)
| TracksLoaded                           (* l.86 *)
| TracksLoadFailed (e : exn)             (* l.88 *)
| FavLoaded                              (* l.97 *)
| FavLoadFailed (e : exn)                (* l.99 *)
| Extracting                             (* l.106 *)
| CheckingQuality                        (* l.110 *)
| Transforming                           (* l.115 *)
| Connecting                             (* l.119 *)
| Loading                                (* l.124 *)
| ProcessSucceeded                       (* l.127 *)
| ProcessFailed (e : exn).               (* l.130 *)

Definition line : Type := (level * message)%type.

(** A computation that writes lines and returns or raises. *)
Definition M (A : Type) : Type := (list line * result A)%type.

Definition output {A} (m : M A) : list line := fst m.
Definition value {A} (m : M A) : result A := snd m.

Definition ret {A} (a : A) : M A := ([], Ok a).
Definition raise {A} (e : exn) : M A := ([], Raise e).
Definition lift {A} (r : result A) : M A := ([], r).
Definition log (l : level) (m : message) : M unit := ([(l, m)], Ok tt).

Definition bind {A B} (m : M A) (k : A -> M B) : M B :=
  match m with
  | (out, Ok a) => let (out', r) := k a in (out ++ out', r)
  | (out, Raise e) => (out, Raise e)
  end.

(** [try: m  except Exception as e: h e]. *)
Definition try_except {A} (m : M A) (h : exn -> M A) : M A :=
  match m with
  | (out, Ok a) => (out, Ok a)
  | (out, Raise e) => let (out', r) := h e in (out ++ out', r)
  end.

End IO.

Import IO.

Declare Scope io_scope.
Delimit Scope io_scope with io.
Notation "x <- m ;; k" := (IO.bind m (fun x => k))
  (at level 61, m at next level, right associativity) : io_scope.
Notation "m ;; k" := (IO.bind m (fun _ => k))
  (at level 61, right associativity) : io_scope.

(* ===================================================================== *)
(** ** data_processing.py *)
(* ===================================================================== *)

Module DataProcessing.

Definition Data_Quality (load_df : DataFrame) : M bool :=
  (if empty load_df then
     log STDOUT NoSongsExtracted ;;
     ret false
   else
     u <- lift (is_unique (map Events.played_at load_df)) ;;
     if negb u
     then raise (Exception_ "Primary Key Exception, Data Might Contain duplicates")
     else if isnull_any load_df
     then raise (Exception_ "Null values found")
     else ret true)%io.

(** The ID column is [timestamp.astype(str) + "-" + artist_name]: the cast
    makes the first column one of strings whatever it was. *)
Definition Transform_df (load_df : DataFrame) : result (list Fav.row) :=
  (Transformed_df <- groupby load_df ;;
   _ <- add_str (astype_str (dtype_of load_df)) ;;
   Ok (map (fun kg : key * DataFrame =>
              Fav.mk (fst (fst kg) ++ "-" ++ snd (fst kg))
                     (fst (fst kg)) (snd (fst kg))
                     (count_notnull Events.played_at (snd kg)))
           Transformed_df))%res.

End DataProcessing.

(* ===================================================================== *)
(** ** The response of the HTTP request, and the loop over its items *)
(* ===================================================================== *)

(** What [requests.get], [raise_for_status] and [response.json()] leave:
    a [RequestException] (transport failure, non-2xx status, unparsable
    body), or the parsed body. *)
Inductive http : Type :=
| HttpFailed
| HttpBody (data : pyobj).

Record columns : Type := mkcols
  { song_names : list pyobj;
    artist_names : list pyobj;
    played_at_list : list pyobj;
    timestamps : list pyobj }.

Definition no_columns : columns := mkcols [] [] [] [].

(** The five statements both extractors run per item; the lists are mutated
    in place, so what was appended before an exception stays appended. *)
Definition item_body (item : pyobj) (c : columns) : columns * result unit :=
  match (t <- getitem item "track" ;; getitem t "name")%res with
  | Raise e => (c, Raise e)
  | Ok name =>
      let c1 := mkcols (song_names c ++ [name]) (artist_names c)
                       (played_at_list c) (timestamps c) in
      match (t <- getitem item "track" ;;
             al <- getitem t "album" ;;
             ar <- getitem al "artists" ;;
             a0 <- getitem0 ar ;;
             getitem a0 "name")%res with
      | Raise e => (c1, Raise e)
      | Ok artist =>
          let c2 := mkcols (song_names c1) (artist_names c1 ++ [artist])
                           (played_at_list c1) (timestamps c1) in
          match getitem item "played_at" with
          | Raise e => (c2, Raise e)
          | Ok played_at =>
              let c3 := mkcols (song_names c2) (artist_names c2)
                               (played_at_list c2 ++ [played_at]) (timestamps c2) in
              match slice10 played_at with
              | Raise e => (c3, Raise e)
              | Ok day =>
                  (mkcols (song_names c3) (artist_names c3)
                          (played_at_list c3) (timestamps c3 ++ [day]), Ok tt)
              end
          end
      end
  end.

Definition frame_of (c : columns) : result DataFrame :=
  of_columns (song_names c) (artist_names c) (played_at_list c) (timestamps c).

(* ===================================================================== *)
(** ** Dags/spotify_etl.py *)
(* ===================================================================== *)

Module SpotifyEtl.

(** The [for item in ...] loop of [return_dataframe], with its
    [try ... except KeyError] around the body. *)
Fixpoint for_items (items : list pyobj) (c : columns) : M columns :=
  match items with
  | [] => ret c
  | item :: rest =>
      match item_body item c with
      | (c', Ok _) => for_items rest c'
      | (c', Raise (KeyError k)) =>
          (log WARNING (ItemSkipped k) ;; for_items rest c')%io
      | (_, Raise e) => raise e
      end
  end.

Definition return_dataframe (response : http) : M DataFrame :=
  (log INFO ExtractionStarted ;;
   data <- match response with
           | HttpFailed => log ERROR ApiRequestFailed ;; raise RequestException
           | HttpBody d => ret d
           end ;;
   its <- lift (get_or_empty data "items") ;;
   items <- lift (iter its) ;;
   c <- for_items items no_columns ;;
   df <- lift (frame_of c) ;;
   log INFO (Extracted (List.length df)) ;;
   ret df)%io.

Definition data_quality (df : DataFrame) : M bool :=
  (log INFO QualityCheckStarted ;;
   if empty df then
     log ERROR FrameIsEmpty ;;
     ret false
   else
     u <- lift (is_unique (map Events.played_at df)) ;;
     if negb u
     then raise (ValueError "duplicates found in column 'played_at'")
     else if isnull_any df
     then raise (ValueError "NULL values found")
     else
       log INFO QualityCheckPassed ;;
       ret true)%io.

(** The ID column is [timestamp + '-' + artist_name], without a cast: on
    the frame without rows, whose columns are [float64], the sum raises. *)
Definition transform_df (df : DataFrame) : M (list Fav.row) :=
  (log INFO TransformStarted ;;
   transformed <- lift (groupby df) ;;
   _ <- lift (add_str (dtype_of df)) ;;
   let result :=
     map (fun kg : key * DataFrame =>
            Fav.mk (fst (fst kg) ++ "-" ++ snd (fst kg))
                   (fst (fst kg)) (snd (fst kg)) (size (snd kg)))
         transformed in
   log INFO (TransformDone (List.length result)) ;;
   ret result)%io.

Definition spotify_etl (response : http) : M DataFrame :=
  (log INFO EtlStarted ;;
   try_except
     (raw_df <- return_dataframe response ;;
      ok <- data_quality raw_df ;;
      if negb ok then
        log ERROR EtlAborted ;;
        ret []
      else
        transformed_df <- transform_df raw_df ;;
        log INFO (EtlDone (List.length raw_df) (List.length transformed_df)) ;;
        log STDOUT (PrintedFrame transformed_df) ;;
        ret raw_df)
     (fun e => log ERROR (EtlFailed e) ;; raise e))%io.

End SpotifyEtl.

(* ===================================================================== *)
(** ** spotify_data_extractor.py *)
(* ===================================================================== *)

Module Extractor.

(** The loop of [get_recently_played_tracks]: no handler around the body. *)
Fixpoint for_items (items : list pyobj) (c : columns) : result columns :=
  match items with
  | [] => Ok c
  | item :: rest =>
      match item_body item c with
      | (c', Ok _) => for_items rest c'
      | (_, Raise e) => Raise e
      end
  end.

(** The three [except] clauses, in their order. *)
Definition handlers {A} (r : result A) : result A :=
  match r with
  | Ok a => Ok a
  | Raise RequestException => Raise ConnectionError
  | Raise (KeyError k) => Raise (KeyError k)
  | Raise _ => Raise RuntimeError
  end.

Definition get_recently_played_tracks (response : http) : result DataFrame :=
  handlers
    (data <- match response with
             | HttpFailed => Raise RequestException
             | HttpBody d => Ok d
             end ;;
     has_items <- contains data "items" ;;
     if negb has_items
     then Raise (ValueError "the API response has no key 'items'")
     else
       its <- getitem data "items" ;;
       items <- iter its ;;
       c <- for_items items no_columns ;;
       frame_of c)%res.

End Extractor.

(* ===================================================================== *)
(** ** The relational store *)
(* ===================================================================== *)

(** A row of the table [my_played_tracks]: four text columns, each NULL or
    a string. *)
Module Tracks.
Record row : Type := mk
  { song_name : option string;
    artist_name : option string;
    played_at : option string;
    timestamp : option string }.
End Tracks.

Module Sql.

(** A table: its rows in insertion order, and who made it.  [has_pk] is true
    of a table made by one of the repository's [CREATE TABLE] statements: it
    carries the [PRIMARY KEY] constraint, named [primary_key_constraint],
    and its columns are [VARCHAR(200)].  A table that pandas creates itself
    ([to_sql] on a missing table, or [if_exists="replace"]) has [TEXT]
    columns, named as the frame names them, and no constraint. *)
Record table (R : Type) : Type := mktable
  { has_pk : bool;
    rows : list R }.
Arguments mktable {R} has_pk rows.
Arguments has_pk {R} t.
Arguments rows {R} t.

(** The store as the scripts reach it: the database and, in front of it, the
    engine and the driver.
    - [available]: a connection can be opened;
    - [plain_sql]: [conn.execute] takes a statement given as a plain [str]
      (SQLAlchemy before 2.0; from 2.0 on it raises);
    - [render_list]: the text that the driver and the database make of a
      Python list bound to a text column, or the exception they raise;
    - the two tables of the pipeline, [None] when the table does not exist. *)
Record store : Type := mkstore
  { available : bool;
    plain_sql : bool;
    render_list : list pyobj -> result string;
    my_played_tracks : option (table Tracks.row);
    fav_artist : option (table Fav.row) }.

Definition with_tracks (st : store) (t : option (table Tracks.row)) : store :=
  mkstore (available st) (plain_sql st) (render_list st) t (fav_artist st).

Definition with_fav (st : store) (t : option (table Fav.row)) : store :=
  mkstore (available st) (plain_sql st) (render_list st) (my_played_tracks st) t.

Inductive if_exists : Type := Append | Replace.

(** *** What the driver makes of a cell *)

Fixpoint has_nul (s : string) : bool :=
  match s with
  | EmptyString => false
  | String c s' => Ascii.eqb c zero || has_nul s'
  end.

(** The parameters of a statement are adapted before it is sent: [None] is
    NULL, a [str] is itself unless it holds the character NUL, a [list] is
    rendered as the store's [render_list] says, a [dict] cannot be
    adapted. *)
Definition adapt (render : list pyobj -> result string) (o : pyobj)
  : result (option string) :=
  match o with
  | PNone => Ok None
  | PStr s =>
      if has_nul s
      then Raise (ValueError "A string literal cannot contain NUL (0x00) characters.")
      else Ok (Some s)
  | PList l => (s <- render l ;; Ok (Some s))%res
  | PDict _ => Raise (StoreError "can't adapt type 'dict'")
  end.

Definition adapt_row (render : list pyobj -> result string) (r : Events.row)
  : result Tracks.row :=
  (s <- adapt render (Events.song_name r) ;;
   a <- adapt render (Events.artist_name r) ;;
   p <- adapt render (Events.played_at r) ;;
   t <- adapt render (Events.timestamp r) ;;
   Ok (Tracks.mk s a p t))%res.

Fixpoint adapt_frame (render : list pyobj -> result string) (df : DataFrame)
  : result (list Tracks.row) :=
  match df with
  | [] => Ok []
  | r :: df' =>
      (x <- adapt_row render r ;;
       xs <- adapt_frame render df' ;;
       Ok (x :: xs))%res
  end.

(** *** What a VARCHAR(200) column makes of a value *)

Fixpoint only_spaces (s : string) : bool :=
  match s with
  | EmptyString => true
  | String c s' => Ascii.eqb c " " && only_spaces s'
  end.

(** A value of more than 200 characters is an error, unless the characters
    beyond the 200th are all spaces: then they are cut off. *)
Definition varchar200 (v : option string) : result (option string) :=
  match v with
  | None => Ok None
  | Some s =>
      if (String.length s <=? 200)%nat then Ok (Some s)
      else if only_spaces (substring 200 (String.length s - 200) s)
      then Ok (Some (substring 0 200 s))
      else Raise (StoreError "value too long for type character varying(200)")
  end.

(** A row as the table [my_played_tracks] of the [CREATE TABLE] statement
    takes it. *)
Definition fit_track (r : Tracks.row) : result Tracks.row :=
  (s <- varchar200 (Tracks.song_name r) ;;
   a <- varchar200 (Tracks.artist_name r) ;;
   p <- varchar200 (Tracks.played_at r) ;;
   t <- varchar200 (Tracks.timestamp r) ;;
   Ok (Tracks.mk s a p t))%res.

Section Insert.

Context {R : Type} (pk : R -> option string) (fit : R -> result R).

Definition conflicts (k : string) (rs : list R) : bool :=
  existsb (fun r => match pk r with
                    | Some k' => String.eqb k k'
                    | None => false
                    end) rs.

(** The INSERT of the rows [new], run in one transaction: the rows go in one
    after the other, and the first that the table refuses fails the
    statement as a whole.  A table with the constraint ([constrained]) takes
    a row as its columns fit it, and refuses a null or stored key. *)
Fixpoint insert_rows (constrained : bool) (rs new : list R) : result (list R) :=
  match new with
  | [] => Ok rs
  | r :: new' =>
      if constrained then
        match fit r with
        | Raise e => Raise e
        | Ok x =>
            match pk x with
            | None => Raise (StoreError "null value in primary key column")
            | Some k =>
                if conflicts k rs
                then Raise (StoreError "duplicate key value violates unique constraint")
                else insert_rows constrained (rs ++ [x]) new'
            end
        end
      else insert_rows constrained (rs ++ [r]) new'
  end.

End Insert.

(** What [to_sql] does before it inserts: with [if_exists="replace"] a table
    that exists is dropped; a table that is missing or was dropped is
    created by pandas.  These statements are committed before the INSERT
    starts (pandas before 2.0), so that they stay when the INSERT fails. *)
Definition prepare {R} (mode : if_exists) (t : option (table R)) : table R :=
  match mode, t with
  | Append, Some t => t
  | _, _ => mktable false []
  end.

(** A computation over the store that writes lines and returns or raises;
    what it did to the store before raising stays done. *)
Definition SIO (A : Type) : Type := store -> (store * M A)%type.

Definition ret {A} (a : A) : SIO A := fun st => (st, IO.ret a).
Definition raise {A} (e : exn) : SIO A := fun st => (st, IO.raise e).
Definition lift {A} (m : M A) : SIO A := fun st => (st, m).
Definition print (m : message) : SIO unit := fun st => (st, IO.log STDOUT m).

Definition bind {A B} (m : SIO A) (k : A -> SIO B) : SIO B :=
  fun st =>
    match m st with
    | (st1, (out, Ok a)) =>
        match k a st1 with
        | (st2, (out', r)) => (st2, (out ++ out', r))
        end
    | (st1, (out, Raise e)) => (st1, (out, Raise e))
    end.

Definition try_except {A} (m : SIO A) (h : exn -> SIO A) : SIO A :=
  fun st =>
    match m st with
    | (st1, (out, Ok a)) => (st1, (out, Ok a))
    | (st1, (out, Raise e)) =>
        match h e st1 with
        | (st2, (out', r)) => (st2, (out ++ out', r))
        end
    end.

(** [load_df.to_sql("my_played_tracks", engine, index=False, if_exists=mode)]. *)
Definition tracks_to_sql (mode : if_exists) (df : DataFrame) : SIO unit :=
  fun st =>
    if negb (available st)
    then (st, IO.raise (StoreError "could not connect to server"))
    else
      let t := prepare mode (my_played_tracks st) in
      match (new <- adapt_frame (render_list st) df ;;
             insert_rows Tracks.played_at fit_track (has_pk t) (rows t) new)%res with
      | Ok rs => (with_tracks st (Some (mktable (has_pk t) rs)), IO.ret tt)
      | Raise e => (with_tracks st (Some t), IO.raise e)
      end.

Definition fav_has_nul (r : Fav.row) : bool :=
  has_nul (Fav.ID r) || has_nul (Fav.timestamp r) || has_nul (Fav.artist_name r).

(** [transformed_df.to_sql("fav_artist", engine, index=False, if_exists=mode)].
    The INSERT names the frame's columns, among them the quoted ["ID"].  The
    table of the [CREATE TABLE] statement has no such column: its [ID] is
    written without quotes and so is the column [id].  That table therefore
    refuses every frame that has a row (a frame without rows sends no
    INSERT).  A table that pandas made has the frame's columns and no
    constraint. *)
Definition fav_to_sql (mode : if_exists) (df : list Fav.row) : SIO unit :=
  fun st =>
    if negb (available st)
    then (st, IO.raise (StoreError "could not connect to server"))
    else
      let t := prepare mode (fav_artist st) in
      match df with
      | [] => (with_fav st (Some t), IO.ret tt)
      | _ :: _ =>
          if existsb fav_has_nul df
          then (with_fav st (Some t),
                IO.raise (ValueError "A string literal cannot contain NUL (0x00) characters."))
          else if has_pk t
          then (with_fav st (Some t),
                IO.raise (StoreError "column ID of relation fav_artist does not exist"))
          else (with_fav st (Some (mktable false (rows t ++ df))), IO.ret tt)
      end.

End Sql.

Import Sql.

Declare Scope sio_scope.
Delimit Scope sio_scope with sio.
Notation "x <- m ;; k" := (Sql.bind m (fun x => k))
  (at level 61, m at next level, right associativity) : sio_scope.
Notation "m ;; k" := (Sql.bind m (fun _ => k))
  (at level 61, right associativity) : sio_scope.

(* ===================================================================== *)
(** ** load_music_data_to_postgres.py *)
(* ===================================================================== *)

Module Loader.

Import DataProcessing.

(** [get_db_engine()]: the five connection variables of the environment
    must all be set. *)
Definition get_db_engine (db_env_set : bool) : SIO unit :=
  if db_env_set then Sql.ret tt
  else Sql.raise (ValueError "not all database variables are set in .env").

(** Both [CREATE TABLE] statements name their constraint
    [primary_key_constraint], and the index of a constraint is a relation of
    the schema under that name: the name is taken as soon as one table made
    by such a statement exists. *)
Definition constraint_name_taken (st : store) : bool :=
  match my_played_tracks st with
  | Some t => has_pk t
  | None => false
  end
  || match fav_artist st with
     | Some t => has_pk t
     | None => false
     end.

(** [CREATE TABLE IF NOT EXISTS my_played_tracks (...)]: nothing is done when
    the table exists; otherwise the table is created with its constraint,
    which fails when the name of the constraint is taken. *)
Definition create_my_played_tracks : SIO unit :=
  fun st =>
    match my_played_tracks st with
    | Some _ => (st, IO.ret tt)
    | None =>
        if constraint_name_taken st
        then (st, IO.raise (StoreError "relation primary_key_constraint already exists"))
        else (with_tracks st (Some (mktable true [])), IO.ret tt)
    end.

(** [CREATE TABLE IF NOT EXISTS fav_artist (...)]. *)
Definition create_fav_artist : SIO unit :=
  fun st =>
    match fav_artist st with
    | Some _ => (st, IO.ret tt)
    | None =>
        if constraint_name_taken st
        then (st, IO.raise (StoreError "relation primary_key_constraint already exists"))
        else (with_fav st (Some (mktable true [])), IO.ret tt)
    end.

(** [create_tables(engine)]: [engine.connect()] fails when the store cannot
    be reached; [conn.execute] of a plain [str] raises unless the engine
    takes one.  Each of the two statements is committed as it is executed,
    so the first table stays when the second statement fails. *)
Definition create_tables : SIO unit :=
  fun st =>
    if negb (available st)
    then (st, IO.raise (StoreError "could not connect to server"))
    else if negb (plain_sql st)
    then (st, IO.raise (StoreError "Not an executable object"))
    else
      (create_my_played_tracks ;;
       create_fav_artist ;;
       print TablesCreated)%sio st.

Definition load_data_to_db (load_df : DataFrame) (transformed_df : list Fav.row)
  : SIO unit :=
  (Sql.try_except
     (tracks_to_sql Append load_df ;;
      print TracksLoaded)
     (fun e => print (TracksLoadFailed e)) ;;
   Sql.try_except
     (fav_to_sql Append transformed_df ;;
      print FavLoaded)
     (fun e => print (FavLoadFailed e)))%sio.

(** The script itself.  It imports its extractor as a module [Extract] that
    is not among the sources: what [Extract.return_dataframe()] returns or
    raises is the argument [extracted].  [Transform] is [data_processing]. *)
Definition main (extracted : result DataFrame) (db_env_set : bool) : SIO unit :=
  Sql.try_except
    (print Extracting ;;
     load_df <- Sql.lift (IO.lift extracted) ;;
     print CheckingQuality ;;
     ok <- Sql.lift (Data_Quality load_df) ;;
     if negb ok
     then Sql.raise (ValueError "data quality check failed")
     else
       print Transforming ;;
       transformed_df <- Sql.lift (IO.lift (Transform_df load_df)) ;;
       print Connecting ;;
       get_db_engine db_env_set ;;
       create_tables ;;
       print Loading ;;
       load_data_to_db load_df transformed_df ;;
       print ProcessSucceeded)%sio
    (fun e => print (ProcessFailed e)).

End Loader.

(* ===================================================================== *)
(** ** Dags/spotify_etl_dag.py *)
(* ===================================================================== *)

Module Dag.

Import SpotifyEtl.

(** The callable of the task [spotify_etl_final].  [None] from the first
    block is its early [return].  Reaching the database (the hook, the
    engine and the write) is one step here: [tracks_to_sql] fails when the
    store is not available. *)
Definition etl_process (response : http) : SIO unit :=
  (print DagStarted ;;
   got <- Sql.try_except
            (df <- Sql.lift (spotify_etl response) ;;
             if empty df then
               print NoDataSkipLoad ;;
               Sql.ret None
             else Sql.ret (Some df))
            (fun e => print (DagExtractionFailed e) ;; Sql.raise e) ;;
   match got with
   | None => Sql.ret tt
   | Some df =>
       Sql.try_except
         (tracks_to_sql Replace df ;;
          print (DagLoaded (List.length df)))
         (fun e => print (DagLoadFailed e) ;; Sql.raise e)
   end)%sio.

End Dag.

(* ===================================================================== *)
(** ** data_processing.py, run as a script *)
(* ===================================================================== *)

Module DataProcessingScript.

Import DataProcessing Extractor.

(** The [__main__] block: nothing is caught, and what [Data_Quality]
    returns is not looked at.  The final [print] of the frame is the line
    [PrintedFrame]. *)
Definition main (response : http) : M unit :=
  (load_df <- IO.lift (get_recently_played_tracks response) ;;
   _ <- Data_Quality load_df ;;
   Transformed_df <- IO.lift (Transform_df load_df) ;;
   log STDOUT (PrintedFrame Transformed_df))%io.

End DataProcessingScript.

(* ===================================================================== *)
(** ** drop_tables.py *)
(* ===================================================================== *)

Module DropTables.

(** The lines of the script's logger, one constructor per call. *)
Inductive message : Type :=
| EngineCreated                  (* l.49 *)
| Dropping (name : string)       (* l.75 *)
| NoSuchTable (name : string)    (* l.78 *)
| AllDropped                     (* l.84 *)
| DropFailed (e : exn)           (* l.87 *)
| ScriptStarted                  (* l.100 *)
| ScriptDone.                    (* l.108 *)

Definition line : Type := (level * message)%type.

Definition TABLES_TO_DROP : list string := [ "my_played_tracks"; "fav_artist" ].

(** The script is written for the API of SQLAlchemy 2.0 ([sqlalchemy.text],
    [conn.commit]) and is followed under it.

    [engine.dialect.has_table(conn, table_name)]: the store holds the two
    tables of the pipeline and no other. *)
Definition has_table (st : store) (name : string) : bool :=
  if String.eqb name "my_played_tracks" then
    match my_played_tracks st with Some _ => true | None => false end
  else if String.eqb name "fav_artist" then
    match fav_artist st with Some _ => true | None => false end
  else false.

(** [DROP TABLE name], for a table that exists. *)
Definition drop_table (st : store) (name : string) : store :=
  if String.eqb name "my_played_tracks" then
    with_tracks st None
  else if String.eqb name "fav_artist" then
    with_fav st None
  else st.

(** The loop over [tables] inside the connection. *)
Fixpoint drop_each (tables : list string) (st : store) : store * list line :=
  match tables with
  | [] => (st, [])
  | table_name :: rest =>
      if has_table st table_name then
        let (st', out) := drop_each rest (drop_table st table_name) in
        (st', (INFO, Dropping table_name) :: out)
      else
        let (st', out) := drop_each rest st in
        (st', (WARNING, NoSuchTable table_name) :: out)
  end.

(** [drop_tables(engine, tables)]: [engine.connect()] fails when the store
    cannot be reached; the handler logs the exception and raises it again.
    The drops are committed together by [conn.commit()] at the end of the
    loop; the session the function opens is closed without being used. *)
Definition drop_tables (tables : list string) (st : store)
  : store * (list line * result unit) :=
  if negb (available st) then
    (st, ([ (ERROR, DropFailed (StoreError "could not connect to server")) ],
          Raise (StoreError "could not connect to server")))
  else
    let (st', out) := drop_each tables st in
    (st', (out ++ [ (INFO, AllDropped) ], Ok tt)).

(** [main()]: [create_engine] opens no connection and logs its success. *)
Definition main (st : store) : store * (list line * result unit) :=
  match drop_tables TABLES_TO_DROP st with
  | (st', (out, Ok _)) =>
      (st', ((INFO, ScriptStarted) :: (INFO, EngineCreated) :: out
               ++ [ (INFO, ScriptDone) ], Ok tt))
  | (st', (out, Raise e)) =>
      (st', ((INFO, ScriptStarted) :: (INFO, EngineCreated) :: out, Raise e))
  end.

End DropTables.

(* ===================================================================== *)
(** * Vocabulary of the statements *)
(* ===================================================================== *)

Import DataProcessing SpotifyEtl Extractor.

(** A batch of playback events: every cell is a [str] or [None]. *)
Definition events_row (r : Events.row) : bool :=
  is_text (Events.song_name r) && is_text (Events.artist_name r)
  && is_text (Events.played_at r) && is_text (Events.timestamp r).

Definition events_frame (df : DataFrame) : bool := forallb events_row df.

(** Two events of the batch share their [played_at]. *)
Definition shares_played_at (df : DataFrame) : Prop :=
  ~ NoDup (map Events.played_at df).

Definition null_field (r : Events.row) : Prop :=
  Events.song_name r = PNone \/ Events.artist_name r = PNone
  \/ Events.played_at r = PNone \/ Events.timestamp r = PNone.

Definition has_null (df : DataFrame) : Prop :=
  exists r, In r df /\ null_field r.

Definition empty_field (r : Events.row) : Prop :=
  Events.song_name r = PStr "" \/ Events.artist_name r = PStr ""
  \/ Events.played_at r = PStr "" \/ Events.timestamp r = PStr "".

Definition has_empty_field (df : DataFrame) : Prop :=
  exists r, In r df /\ empty_field r.

(** The pair (date, artist) occurs in the batch. *)
Definition occurs (t a : string) (df : DataFrame) : Prop :=
  exists r, In r df /\ Events.timestamp r = PStr t /\ Events.artist_name r = PStr a.

(** The number of events of the batch with the pair (date, artist). *)
Definition occurrences (t a : string) (df : DataFrame) : nat :=
  List.length
    (filter (fun r => cell_eqb (Events.timestamp r) (PStr t)
                      && cell_eqb (Events.artist_name r) (PStr a)) df).

Definition fav_key (x : Fav.row) : key := (Fav.timestamp x, Fav.artist_name x).

Definition key_lt (k1 k2 : key) : Prop := key_compare k1 k2 = Lt.

Definition id_lt (a b : string) : Prop := String.compare a b = Lt.

(** Every date of the batch is a string of [n] characters. *)
Definition dates_of_length (n : nat) (df : DataFrame) : bool :=
  forallb (fun r => match Events.timestamp r with
                    | PStr d => Nat.eqb (String.length d) n
                    | _ => false
                    end) df.

(** An event as the extractors build it from a well-formed item. *)
Definition ev (song artist played : string) : Events.row :=
  Events.mk (PStr song) (PStr artist) (PStr played) (PStr (substring 0 10 played)).

(** The record of the group of [k], its count taken by [f]. *)
Definition Fav_of_count (f : DataFrame -> nat) (df : DataFrame) (k : key) : Fav.row :=
  Fav.mk (fst k ++ "-" ++ snd k) (fst k) (snd k) (f (group k df)).

(** The primary keys stored in the events table. *)
Definition track_keys (t : table Tracks.row) : list (option string) :=
  map Tracks.played_at (rows t).

(** [out] is what one of the two aggregators returns for [df]. *)
Definition aggregate_of (df : DataFrame) (out : list Fav.row) : Prop :=
  Transform_df df = Ok out \/ value (transform_df df) = Ok out.

(** Three plays of one day, two of them of the same artist. *)
Definition df_three_plays : DataFrame :=
  [ ev "s1" "A" "2024-01-01T10:00:00Z";
    ev "s2" "A" "2024-01-01T11:00:00Z";
    ev "s3" "B" "2024-01-01T12:00:00Z" ].

(** The same plays in another order. *)
Definition df_three_plays_reordered : DataFrame :=
  [ ev "s3" "B" "2024-01-01T12:00:00Z";
    ev "s1" "A" "2024-01-01T10:00:00Z";
    ev "s2" "A" "2024-01-01T11:00:00Z" ].

(** One play whose song name is the empty string. *)
Definition df_blank_song : DataFrame :=
  [ Events.mk (PStr "") (PStr "A") (PStr "2024-01-01T10:00:00Z") (PStr "2024-01-01") ].

(** Two plays whose [played_at] strings are shorter than ten characters, so
    that their dates differ in length. *)
Definition df_short_dates : DataFrame :=
  [ ev "s1" "z" "2024"; ev "s2" "a" "2024-" ].

(** A second batch with a play of artist A on the same day. *)
Definition df_late_play : DataFrame :=
  [ ev "s9" "A" "2024-01-01T23:00:00Z" ].

(** A well-formed item of the response. *)
Definition item (song artist played : string) : pyobj :=
  PDict [ ("track",
           PDict [ ("name", PStr song);
                   ("album", PDict [ ("artists", PList [ PDict [ ("name", PStr artist) ] ]) ]) ]);
          ("played_at", PStr played) ].

(** An item that lacks [track.album.artists]. *)
Definition item_without_artists : pyobj :=
  PDict [ ("track", PDict [ ("name", PStr "s2"); ("album", PDict []) ]);
          ("played_at", PStr "2024-01-01T11:00:00Z") ].

(** An item that lacks [track]. *)
Definition item_without_track : pyobj :=
  PDict [ ("played_at", PStr "2024-01-01T11:00:00Z") ].

Definition body_of (items : list pyobj) : http :=
  HttpBody (PDict [ ("items", PList items) ]).

(** A response with two well-formed items around one without artists. *)
Definition response_one_without_artists : http :=
  body_of [ item "s1" "A" "2024-01-01T10:00:00Z";
            item_without_artists;
            item "s3" "B" "2024-01-01T12:00:00Z" ].

Definition response_one_without_track : http :=
  body_of [ item "s1" "A" "2024-01-01T10:00:00Z";
            item_without_track;
            item "s3" "B" "2024-01-01T12:00:00Z" ].

(** A response body without the key [items]. *)
Definition response_without_items : http := HttpBody (PDict []).

(** A response with one new play. *)
Definition response_new_play : http :=
  body_of [ item "s1" "A" "2024-01-01T10:00:00Z" ].

Definition old_track : Tracks.row :=
  Tracks.mk (Some "s0") (Some "B") (Some "2023-12-31T10:00:00Z") (Some "2023-12-31").

Definition new_track : Tracks.row :=
  Tracks.mk (Some "s1") (Some "A") (Some "2024-01-01T10:00:00Z") (Some "2024-01-01").

(** A driver that adapts no list.  The examples store no list, so that they
    come out the same with any driver. *)
Definition no_lists (l : list pyobj) : result string :=
  Raise (StoreError "can't adapt type 'list'").

(** A store whose two tables both carry a primary key, with one play
    stored.  (The repository's own statements do not lead to it: the two
    constraints of [create_tables] share their name.) *)
Definition store_after_one_run : store :=
  mkstore true true no_lists
          (Some (mktable true [ old_track ]))
          (Some (mktable true [ Fav.mk "2023-12-31-B" "2023-12-31" "B" 1 ])).

(** A store that cannot be reached. *)
Definition store_down : store := mkstore false true no_lists None None.

(** A batch that repeats the stored play and adds a new one. *)
Definition df_overlapping : DataFrame :=
  [ ev "s0" "B" "2023-12-31T10:00:00Z"; ev "s1" "A" "2024-01-01T10:00:00Z" ].

(** The timestamps column is shorter than the song names column: an item
    was read in part. *)
Definition skewed (c : columns) : Prop :=
  List.length (timestamps c) < List.length (song_names c).

Definition not_ahead (c : columns) : Prop :=
  List.length (timestamps c) <= List.length (song_names c).

(** The worked example of the specification. *)
Example worked_example :
  Transform_df df_three_plays
  = Ok [ Fav.mk "2024-01-01-A" "2024-01-01" "A" 2;
         Fav.mk "2024-01-01-B" "2024-01-01" "B" 1 ].
Proof. reflexivity. Qed.

(** *** Vocabulary of the further properties *)

(** The event an item stands for: its four fields, read in the order of
    the loop body. *)
Definition read_item (it : pyobj) : result Events.row :=
  (name <- (t <- getitem it "track" ;; getitem t "name") ;;
   artist <- (t <- getitem it "track" ;;
              al <- getitem t "album" ;;
              ar <- getitem al "artists" ;;
              a0 <- getitem0 ar ;;
              getitem a0 "name") ;;
   played <- getitem it "played_at" ;;
   day <- slice10 played ;;
   Ok (Events.mk name artist played day))%res.

(** The events of the items that can be read in full, in their order. *)
Definition complete_rows (items : list pyobj) : DataFrame :=
  flat_map (fun it => match read_item it with
                      | Ok r => [r]
                      | Raise _ => []
                      end) items.

(** The four columns of a frame. *)
Definition cols_of (df : DataFrame) : columns :=
  mkcols (map Events.song_name df) (map Events.artist_name df)
         (map Events.played_at df) (map Events.timestamp df).

(** The body of the response is a dict whose [items] is the list [items]. *)
Definition items_of (response : http) (items : list pyobj) : Prop :=
  exists kvs, response = HttpBody (PDict kvs)
              /\ lookup "items" kvs = Some (PList items).

(** The rows whose date and artist are both strings: the rows [groupby]
    keeps. *)
Definition keyed_rows (df : DataFrame) : DataFrame :=
  filter (fun r => match row_key r with Some _ => true | None => false end) df.

(** Whether the row [r] belongs to the group of [k], as a number. *)
Definition hits (r : Events.row) (k : key) : nat :=
  if has_key k r then 1 else 0.

(** A text cell as the value of a text column. *)
Definition sql_of (o : pyobj) : option string :=
  match o with
  | PStr s => Some s
  | _ => None
  end.

Definition to_track (r : Events.row) : Tracks.row :=
  Tracks.mk (sql_of (Events.song_name r)) (sql_of (Events.artist_name r))
            (sql_of (Events.played_at r)) (sql_of (Events.timestamp r)).

(** A cell that the driver takes as it is: [None], or a [str] without the
    character NUL. *)
Definition plain_cell (o : pyobj) : bool :=
  match o with
  | PNone => true
  | PStr s => negb (has_nul s)
  | PList _ | PDict _ => false
  end.

Definition plain_row (r : Events.row) : bool :=
  plain_cell (Events.song_name r) && plain_cell (Events.artist_name r)
  && plain_cell (Events.played_at r) && plain_cell (Events.timestamp r).

Definition plain_frame (df : DataFrame) : bool := forallb plain_row df.

(** A cell that fits a VARCHAR(200) column: no string of more than 200
    characters. *)
Definition short_cell (o : pyobj) : bool :=
  match o with
  | PStr s => (String.length s <=? 200)%nat
  | _ => true
  end.

Definition short_row (r : Events.row) : bool :=
  short_cell (Events.song_name r) && short_cell (Events.artist_name r)
  && short_cell (Events.played_at r) && short_cell (Events.timestamp r).

Definition short_frame (df : DataFrame) : bool := forallb short_row df.

(** The keys of the batch are new to the table: every [played_at] of the
    batch is a string that is not stored, and no two events of the batch
    share it. *)
Definition new_keys (t : table Tracks.row) (df : DataFrame) : Prop :=
  NoDup (map Events.played_at df)
  /\ forall r, In r df ->
       exists k, Events.played_at r = PStr k /\ ~ In (Some k) (track_keys t).

(** The line that [load_data_to_db] prints after its write to the events
    table, and after its write to the aggregate table. *)
Definition tracks_line (r : result unit) : IO.line :=
  match r with
  | Ok _ => (STDOUT, TracksLoaded)
  | Raise e => (STDOUT, TracksLoadFailed e)
  end.

Definition fav_line (r : result unit) : IO.line :=
  match r with
  | Ok _ => (STDOUT, FavLoaded)
  | Raise e => (STDOUT, FavLoadFailed e)
  end.

(** An earlier play, stored by pandas together with the play [new_track]:
    the events table after a run of the DAG task on these two plays. *)
Definition store_after_two_plays : store :=
  mkstore true true no_lists (Some (mktable false [ old_track; new_track ])) None.

(** A store whose events table was made by the [CREATE TABLE] statement and
    holds one play; the aggregate table does not exist. *)
Definition store_with_history : store :=
  mkstore true true no_lists (Some (mktable true [ old_track ])) None.

(** A database in which no table of the pipeline exists. *)
Definition store_fresh : store := mkstore true true no_lists None None.

(** A store behind an engine of SQLAlchemy 2.0, after a run of the DAG
    task. *)
Definition store_sqlalchemy2 : store :=
  mkstore true false no_lists (Some (mktable false [ new_track ])) None.

(** The output ends on the line [l]. *)
Definition ends_on (l : IO.line) (out : list IO.line) : Prop :=
  exists before, out = before ++ [l].

(** The script [load_music_data_to_postgres.py] gets as far as its loader:
    the extraction returned [df], the quality gate returned [True], the
    aggregation returned [tdf], the connection variables are set and
    [create_tables] returned. *)
Definition reaches_loader (extracted : result DataFrame) (db_env_set : bool)
           (st : store) (df : DataFrame) (tdf : list Fav.row) : Prop :=
  extracted = Ok df
  /\ value (Data_Quality df) = Ok true
  /\ Transform_df df = Ok tdf
  /\ db_env_set = true
  /\ value (snd (Loader.create_tables st)) = Ok tt.

Definition is_some {A : Type} (o : option A) : bool :=
  match o with
  | Some _ => true
  | None => false
  end.

(** The line that [drop_tables] logs for the table [name]. *)
Definition drop_line (present : bool) (name : string) : DropTables.line :=
  if present then (INFO, DropTables.Dropping name)
  else (WARNING, DropTables.NoSuchTable name).

(** The events table after [to_sql] of [df], given whether the store can
    be reached, its driver and the table before. *)
Definition tracks_written (mode : if_exists) (df : DataFrame) (reachable : bool)
           (render : list pyobj -> result string)
           (t : option (table Tracks.row)) : option (table Tracks.row) :=
  if reachable then
    let t0 := prepare mode t in
    match (new <- adapt_frame render df ;;
           insert_rows Tracks.played_at fit_track (has_pk t0) (rows t0) new)%res with
    | Ok rs => Some (mktable (has_pk t0) rs)
    | Raise _ => Some t0
    end
  else t.

(** The aggregate table after [to_sql] of [df]. *)
Definition fav_written (mode : if_exists) (df : list Fav.row) (reachable : bool)
           (t : option (table Fav.row)) : option (table Fav.row) :=
  if reachable then
    let t0 := prepare mode t in
    match df with
    | [] => Some t0
    | _ :: _ =>
        if existsb fav_has_nul df || has_pk t0 then Some t0
        else Some (mktable false (rows t0 ++ df))
    end
  else t.

(** The warnings of the items that cannot be read: one per item whose
    reading stops on a missing key. *)
Definition warnings_of (items : list pyobj) : list IO.line :=
  flat_map (fun it => match read_item it with
                      | Raise (KeyError k) => [ (WARNING, ItemSkipped k) ]
                      | _ => []
                      end) items.

(** The response whose items are the three plays of the worked example. *)
Definition items_three_plays : list pyobj :=
  [ item "s1" "A" "2024-01-01T10:00:00Z";
    item "s2" "A" "2024-01-01T11:00:00Z";
    item "s3" "B" "2024-01-01T12:00:00Z" ].

Definition response_three_plays : http := body_of items_three_plays.

(** A response that reports the same play twice. *)
Definition response_repeated_play : http :=
  body_of [ item "s1" "A" "2024-01-01T10:00:00Z";
            item "s1" "A" "2024-01-01T10:00:00Z" ].



(** A store after a run of the DAG task: the events table carries no
    constraint, the aggregate table does not exist. *)
Definition store_after_dag_run : store :=
  mkstore true true no_lists (Some (mktable false [ new_track ])) None.

(** A response with extra fields around the ones the pipeline reads. *)
Definition response_with_extras : http :=
  HttpBody
    (PDict [ ("href", PStr "https://api.spotify.com/v1/me/player/recently-played");
             ("items",
              PList [ PDict [ ("context", PNone);
                              ("played_at", PStr "2024-01-01T10:00:00Z");
                              ("track",
                               PDict [ ("album",
                                        PDict [ ("artists",
                                                 PList [ PDict [ ("id", PStr "a1");
                                                                 ("name", PStr "A") ];
                                                         PDict [ ("id", PStr "a2");
                                                                 ("name", PStr "F") ] ]) ]);
                                       ("name", PStr "s1") ]) ];
                      item_without_track;
                      item "s3" "B" "2024-01-01T12:00:00Z" ]) ]).

Definition items_with_extras : list pyobj :=
  match response_with_extras with
  | HttpBody (PDict [ _; (_, PList items) ]) => items
  | _ => []
  end.

(* ===================================================================== *)
(** * Properties *)
(* ===================================================================== *)

(** ** The order of group keys *)

Section KeyOrder.

Lemma string_compare_refl (s : string) : String.compare s s = Eq.
Proof. now apply String_as_OT.cmp_eq. Qed.

Lemma string_compare_trans (a b c : string) :
  String.compare a b = Lt -> String.compare b c = Lt -> String.compare a c = Lt.
Proof.
  intros Hab Hbc.
  apply String_as_OT.cmp_lt in Hab. apply String_as_OT.cmp_lt in Hbc.
  apply String_as_OT.cmp_lt. eapply String_as_OT.lt_trans; eassumption.
Qed.

Lemma key_compare_eq (k1 k2 : key) : key_compare k1 k2 = Eq <-> k1 = k2.
Proof.
  destruct k1 as [t1 a1], k2 as [t2 a2]. unfold key_compare. simpl. split.
  - destruct (String.compare t1 t2) eqn:Ht; try discriminate.
    intros Ha. apply String_as_OT.cmp_eq in Ht. apply String_as_OT.cmp_eq in Ha.
    now subst.
  - intros E. inversion E; subst. now rewrite !string_compare_refl.
Qed.

Lemma key_compare_antisym (k1 k2 : key) :
  key_compare k1 k2 = CompOpp (key_compare k2 k1).
Proof.
  destruct k1 as [t1 a1], k2 as [t2 a2]. unfold key_compare. simpl.
  rewrite (String.compare_antisym t1 t2), (String.compare_antisym a1 a2).
  destruct (String.compare t2 t1), (String.compare a2 a1); reflexivity.
Qed.

Lemma key_lt_irrefl (k : key) : ~ key_lt k k.
Proof.
  unfold key_lt. intros H.
  assert (E : key_compare k k = Eq) by now apply key_compare_eq.
  congruence.
Qed.

Lemma key_lt_trans (k1 k2 k3 : key) : key_lt k1 k2 -> key_lt k2 k3 -> key_lt k1 k3.
Proof.
  destruct k1 as [t1 a1], k2 as [t2 a2], k3 as [t3 a3].
  unfold key_lt, key_compare. simpl.
  destruct (String.compare t1 t2) eqn:H12; try discriminate;
    destruct (String.compare t2 t3) eqn:H23; try discriminate; intros Ha Hb.
  - apply String_as_OT.cmp_eq in H12, H23. subst.
    rewrite string_compare_refl. eapply string_compare_trans; eassumption.
  - apply String_as_OT.cmp_eq in H12. subst. now rewrite H23.
  - apply String_as_OT.cmp_eq in H23. subst. now rewrite H12.
  - now rewrite (string_compare_trans _ _ _ H12 H23).
Qed.

Lemma key_gt_lt (k1 k2 : key) : key_compare k1 k2 = Gt -> key_lt k2 k1.
Proof.
  unfold key_lt. intros H. rewrite key_compare_antisym, H. reflexivity.
Qed.

Lemma key_eqb_eq (k1 k2 : key) : key_eqb k1 k2 = true <-> k1 = k2.
Proof.
  destruct k1 as [t1 a1], k2 as [t2 a2]. unfold key_eqb. simpl.
  rewrite andb_true_iff, !String.eqb_eq. split.
  - now intros [-> ->].
  - intros E. now inversion E.
Qed.

Lemma insert_key_In (k k' : key) (ks : list key) :
  In k' (insert_key k ks) <-> k' = k \/ In k' ks.
Proof.
  induction ks as [|k0 ks IH]; simpl.
  - intuition.
  - destruct (key_compare k k0) eqn:C; simpl.
    + apply key_compare_eq in C. subst. intuition.
    + intuition.
    + rewrite IH. intuition.
Qed.

Lemma insert_key_sorted (k : key) (ks : list key) :
  StronglySorted key_lt ks -> StronglySorted key_lt (insert_key k ks).
Proof.
  induction ks as [|k0 ks IH]; simpl; intros S.
  - repeat constructor.
  - inversion S as [|? ? S' F]; subst.
    destruct (key_compare k k0) eqn:C.
    + assumption.
    + constructor; [assumption|]. constructor; [exact C|].
      eapply Forall_impl; [|exact F]. intros x Hx. eapply key_lt_trans; eassumption.
    + constructor; [now apply IH|].
      apply Forall_forall. intros x Hx. apply insert_key_In in Hx.
      destruct Hx as [->|Hx].
      * now apply key_gt_lt.
      * rewrite Forall_forall in F. now apply F.
Qed.

Lemma sorted_keys_sorted (df : DataFrame) : StronglySorted key_lt (sorted_keys df).
Proof.
  induction df as [|r df IH]; simpl.
  - constructor.
  - destruct (row_key r); [now apply insert_key_sorted | assumption].
Qed.

Lemma sorted_keys_In (k : key) (df : DataFrame) :
  In k (sorted_keys df) <-> exists r, In r df /\ row_key r = Some k.
Proof.
  induction df as [|r df IH]; simpl.
  - split; [tauto | intros [r [[] _]]].
  - destruct (row_key r) as [k0|] eqn:K.
    + rewrite insert_key_In, IH. split.
      * intros [->|[r' [Hr' Hk]]]; eauto.
      * intros [r' [[<-|Hr'] Hk]]; [left; congruence | right; eauto].
    + rewrite IH. split.
      * intros [r' [Hr' Hk]]; eauto.
      * intros [r' [[<-|Hr'] Hk]]; [congruence | eauto].
Qed.

Lemma strictly_sorted_NoDup (ks : list key) : StronglySorted key_lt ks -> NoDup ks.
Proof.
  induction 1 as [|k ks S IH F]; constructor; auto.
  intros Hin. rewrite Forall_forall in F. exact (key_lt_irrefl k (F k Hin)).
Qed.

(** Two ascending lists of distinct keys with the same elements are equal. *)
Lemma strictly_sorted_unique (l1 l2 : list key) :
  StronglySorted key_lt l1 -> StronglySorted key_lt l2 ->
  (forall k, In k l1 <-> In k l2) -> l1 = l2.
Proof.
  intros S1. revert l2.
  induction S1 as [|a l1 S1 IH F1]; intros l2 S2 E.
  - destruct l2 as [|b l2]; [reflexivity|].
    exfalso. apply (E b). now left.
  - destruct l2 as [|b l2].
    + exfalso. apply (E a). now left.
    + inversion S2 as [|? ? S2' F2]; subst.
      rewrite Forall_forall in F1, F2.
      assert (a = b) as ->.
      { destruct (proj1 (E a) (or_introl eq_refl)) as [<-|Hab]; [reflexivity|].
        destruct (proj2 (E b) (or_introl eq_refl)) as [<-|Hba]; [reflexivity|].
        exfalso. apply (key_lt_irrefl a).
        eapply key_lt_trans; [apply F1, Hba | apply F2, Hab]. }
      f_equal. apply IH; [assumption|].
      intros k. split; intros Hk.
      * destruct (proj1 (E k) (or_intror Hk)) as [<-|H]; [|assumption].
        exfalso. exact (key_lt_irrefl _ (F1 _ Hk)).
      * destruct (proj2 (E k) (or_intror Hk)) as [<-|H]; [|assumption].
        exfalso. exact (key_lt_irrefl _ (F2 _ Hk)).
Qed.

Lemma sorted_keys_Permutation (df df' : DataFrame) :
  Permutation df df' -> sorted_keys df = sorted_keys df'.
Proof.
  intros P. apply strictly_sorted_unique; try apply sorted_keys_sorted.
  intros k. rewrite !sorted_keys_In. split; intros [r [Hr Hk]]; exists r; split; auto.
  - eapply Permutation_in; eassumption.
  - eapply Permutation_in; [apply Permutation_sym|]; eassumption.
Qed.

End KeyOrder.

(** ** Aggregation *)

Section Aggregation.

Lemma Transform_df_eq (df : DataFrame) :
  Transform_df df =
  if keys_hashable df
  then Ok (map (Fav_of_count (count_notnull Events.played_at) df) (sorted_keys df))
  else Raise TypeError.
Proof.
  unfold Transform_df, groupby. destruct (keys_hashable df); simpl; [|reflexivity].
  now rewrite map_map.
Qed.

Lemma transform_df_eq (df : DataFrame) :
  value (transform_df df) =
  if keys_hashable df && negb (empty df)
  then Ok (map (Fav_of_count size df) (sorted_keys df))
  else Raise TypeError.
Proof.
  unfold transform_df, groupby, dtype_of, value, IO.bind, IO.lift, IO.log, IO.ret.
  destruct (keys_hashable df); simpl; [|reflexivity].
  destruct df as [|r df]; simpl; [reflexivity|].
  now rewrite map_map.
Qed.

Lemma empty_false (df : DataFrame) : df <> [] -> empty df = false.
Proof. destruct df; [congruence | reflexivity]. Qed.

Lemma events_frame_keys_hashable (df : DataFrame) :
  events_frame df = true -> keys_hashable df = true.
Proof.
  unfold events_frame, keys_hashable. rewrite !forallb_forall.
  intros H r Hr. specialize (H r Hr). unfold events_row in H.
  destruct (Events.timestamp r), (Events.artist_name r);
    simpl in *; rewrite ?andb_false_r in H; try discriminate; reflexivity.
Qed.

Lemma has_key_cells (t a : string) (r : Events.row) :
  has_key (t, a) r =
  cell_eqb (Events.timestamp r) (PStr t) && cell_eqb (Events.artist_name r) (PStr a).
Proof.
  unfold has_key, row_key, key_eqb.
  destruct (Events.timestamp r) as [|t'| |], (Events.artist_name r) as [|a'| |];
    simpl; rewrite ?andb_false_r; try reflexivity.
  now rewrite (String.eqb_sym t t'), (String.eqb_sym a a').
Qed.

Lemma size_group (t a : string) (df : DataFrame) :
  size (group (t, a) df) = occurrences t a df.
Proof.
  unfold size, group, occurrences. f_equal.
  apply filter_ext. intros r. apply has_key_cells.
Qed.

Lemma row_key_Some (r : Events.row) (t a : string) :
  row_key r = Some (t, a) <->
  Events.timestamp r = PStr t /\ Events.artist_name r = PStr a.
Proof.
  unfold row_key.
  destruct (Events.timestamp r), (Events.artist_name r); split;
    try (intros [? ?]); try discriminate; try congruence.
  intros E. inversion E. auto.
Qed.

Lemma isnull_any_false (df : DataFrame) (r : Events.row) :
  isnull_any df = false -> In r df -> row_isnull r = false.
Proof.
  unfold isnull_any. intros H Hr.
  destruct (row_isnull r) eqn:N; [|reflexivity].
  assert (existsb row_isnull df = true) by (apply existsb_exists; eauto).
  congruence.
Qed.

Lemma count_notnull_size (df g : DataFrame) :
  isnull_any df = false -> incl g df ->
  count_notnull Events.played_at g = size g.
Proof.
  intros N I. unfold count_notnull, size.
  induction g as [|r g IH]; simpl; [reflexivity|].
  assert (Hr : row_isnull r = false) by (apply (isnull_any_false df); auto with datatypes).
  unfold row_isnull in Hr. rewrite !orb_false_iff in Hr.
  destruct Hr as [[[_ _] Hp] _]. rewrite Hp. simpl. f_equal.
  apply IH. intros x Hx. apply I. now right.
Qed.

Lemma count_group (df : DataFrame) (k : key) :
  isnull_any df = false ->
  count_notnull Events.played_at (group k df) = size (group k df).
Proof.
  intros N. apply (count_notnull_size df); [assumption|].
  unfold group. intros x Hx. apply filter_In in Hx. tauto.
Qed.

Lemma keys_hashable_Permutation (df df' : DataFrame) :
  Permutation df df' -> keys_hashable df = keys_hashable df'.
Proof.
  intros P. unfold keys_hashable. apply eq_true_iff_eq.
  rewrite !forallb_forall. split; intros H r Hr; apply H.
  - eapply Permutation_in; [apply Permutation_sym|]; eassumption.
  - eapply Permutation_in; eassumption.
Qed.

Lemma group_Permutation (k : key) (df df' : DataFrame) :
  Permutation df df' -> Permutation (group k df) (group k df').
Proof.
  unfold group. induction 1; simpl.
  - constructor.
  - destruct (has_key k x); auto.
  - destruct (has_key k x), (has_key k y); auto. constructor.
  - eapply Permutation_trans; eassumption.
Qed.

Lemma count_notnull_Permutation (col : Events.row -> pyobj) (g g' : DataFrame) :
  Permutation g g' -> count_notnull col g = count_notnull col g'.
Proof.
  intros P. unfold count_notnull. apply Permutation_length.
  induction P; simpl.
  - constructor.
  - destruct (negb (isnull (col x))); auto.
  - destruct (negb (isnull (col x))), (negb (isnull (col y))); auto. constructor.
  - eapply Permutation_trans; eassumption.
Qed.

End Aggregation.

(** ** The quality gate *)

Section QualityGate.

Lemma Data_Quality_value (df : DataFrame) :
  value (Data_Quality df) =
  if empty df then Ok false
  else match is_unique (map Events.played_at df) with
       | Raise e => Raise e
       | Ok u =>
           if negb u
           then Raise (Exception_ "Primary Key Exception, Data Might Contain duplicates")
           else if isnull_any df then Raise (Exception_ "Null values found")
                else Ok true
       end.
Proof.
  unfold Data_Quality. destruct (empty df); [reflexivity|].
  destruct (is_unique (map Events.played_at df)) as [u|e]; [|reflexivity].
  destruct u; simpl; [|reflexivity].
  destruct (isnull_any df); reflexivity.
Qed.

Lemma data_quality_value (df : DataFrame) :
  value (data_quality df) =
  if empty df then Ok false
  else match is_unique (map Events.played_at df) with
       | Raise e => Raise e
       | Ok u =>
           if negb u
           then Raise (ValueError "duplicates found in column 'played_at'")
           else if isnull_any df then Raise (ValueError "NULL values found")
                else Ok true
       end.
Proof.
  unfold data_quality. destruct (empty df); [reflexivity|].
  destruct (is_unique (map Events.played_at df)) as [u|e]; [|reflexivity].
  destruct u; simpl; [|reflexivity].
  destruct (isnull_any df); reflexivity.
Qed.

Lemma cell_eqb_true (a b : pyobj) : cell_eqb a b = true -> a = b.
Proof.
  destruct a, b; simpl; try discriminate; auto.
  intros H. apply String.eqb_eq in H. now subst.
Qed.

Lemma cell_eqb_refl (a : pyobj) : is_text a = true -> cell_eqb a a = true.
Proof. destruct a; simpl; try discriminate; auto using String.eqb_refl. Qed.

Lemma existsb_cell_eqb (x : pyobj) (l : list pyobj) :
  is_text x = true -> (existsb (cell_eqb x) l = true <-> In x l).
Proof.
  intros T. rewrite existsb_exists. split.
  - intros [y [Hy E]]. apply cell_eqb_true in E. now subst.
  - intros H. exists x. split; [assumption | now apply cell_eqb_refl].
Qed.

Lemma nodupb_NoDup (col : list pyobj) :
  forallb is_text col = true -> (nodupb col = true <-> NoDup col).
Proof.
  induction col as [|x col IH]; simpl; intros T.
  - split; [constructor | reflexivity].
  - apply andb_true_iff in T. destruct T as [Tx T].
    rewrite andb_true_iff, negb_true_iff, (IH T). split.
    + intros [Hx N]. constructor; [|assumption].
      intros Hin. apply (existsb_cell_eqb x col Tx) in Hin. congruence.
    + intros N. inversion N as [|? ? Hx N']; subst. split; [|assumption].
      destruct (existsb (cell_eqb x) col) eqn:E; [|reflexivity].
      apply (existsb_cell_eqb x col Tx) in E. contradiction.
Qed.

Lemma events_frame_played_at (df : DataFrame) :
  events_frame df = true -> forallb is_text (map Events.played_at df) = true.
Proof.
  unfold events_frame. induction df as [|r df IH]; simpl; [reflexivity|].
  rewrite !andb_true_iff. unfold events_row. rewrite !andb_true_iff.
  intros [[[[_ _] Hp] _] H]. auto.
Qed.

Lemma is_text_hashable (col : list pyobj) :
  forallb is_text col = true -> forallb hashable col = true.
Proof.
  rewrite !forallb_forall. intros H x Hx. specialize (H x Hx).
  destruct x; simpl in *; congruence.
Qed.

Lemma isnull_eq (o : pyobj) : isnull o = true <-> o = PNone.
Proof. destruct o; simpl; split; congruence. Qed.

Lemma row_isnull_null_field (r : Events.row) : row_isnull r = true <-> null_field r.
Proof.
  unfold row_isnull, null_field. rewrite !orb_true_iff, !isnull_eq. tauto.
Qed.

Lemma isnull_any_has_null (df : DataFrame) : isnull_any df = true <-> has_null df.
Proof.
  unfold isnull_any, has_null. rewrite existsb_exists.
  split; intros [r [Hr N]]; exists r; split; auto; now apply row_isnull_null_field.
Qed.

(** What a passed gate means, on any frame. *)
Lemma Data_Quality_passed (df : DataFrame) :
  value (Data_Quality df) = Ok true ->
  df <> [] /\ nodupb (map Events.played_at df) = true /\ isnull_any df = false.
Proof.
  rewrite Data_Quality_value. intros H.
  destruct df as [|r df]; [discriminate|].
  cbn [empty] in H. unfold is_unique in H.
  destruct (forallb hashable (map Events.played_at (r :: df))); [|discriminate].
  destruct (nodupb (map Events.played_at (r :: df))); [|discriminate].
  destruct (isnull_any (r :: df)); [discriminate|].
  repeat split; congruence.
Qed.

End QualityGate.

(** ** The claims about the quality gate and the aggregators *)

Lemma gate_cases (df : DataFrame) :
  events_frame df = true -> df <> [] ->
  ((shares_played_at df \/ has_null df)
   /\ (exists e, value (Data_Quality df) = Raise e)
   /\ (exists e, value (data_quality df) = Raise e))
  \/
  (~ (shares_played_at df \/ has_null df)
   /\ value (Data_Quality df) = Ok true
   /\ value (data_quality df) = Ok true).
Proof.
  intros T NE.
  pose proof (events_frame_played_at df T) as Tp.
  pose proof (nodupb_NoDup _ Tp) as HN.
  pose proof (isnull_any_has_null df) as HZ.
  rewrite Data_Quality_value, data_quality_value.
  destruct df as [|r df]; [congruence|]. cbn [empty].
  unfold is_unique. rewrite (is_text_hashable _ Tp).
  unfold shares_played_at.
  destruct (nodupb (map Events.played_at (r :: df))); cbn [negb].
  - destruct (isnull_any (r :: df)).
    + left. repeat split; eauto. right. now apply HZ.
    + right. repeat split; auto. intros [D|Z].
      * apply D. now apply HN.
      * apply HZ in Z. discriminate.
  - left. repeat split; eauto. left. intros D. apply HN in D. discriminate.
Qed.

(** C2, as amended: on a non-empty batch of events both quality gates
    ([Data_Quality] and [data_quality]) raise exactly when two events share
    their [played_at] or some field is null; otherwise they return [True].
    (An empty string is not null and is let through.) *)
Theorem quality_gate_raises_iff_duplicate_or_null (df : DataFrame) :
  events_frame df = true -> df <> [] ->
  ((exists e, value (Data_Quality df) = Raise e)
     <-> shares_played_at df \/ has_null df)
  /\ ((exists e, value (data_quality df) = Raise e)
     <-> shares_played_at df \/ has_null df)
  /\ (value (Data_Quality df) = Ok true
     <-> ~ (shares_played_at df \/ has_null df))
  /\ (value (data_quality df) = Ok true
     <-> ~ (shares_played_at df \/ has_null df)).
Proof.
  intros T NE.
  destruct (gate_cases df T NE) as [(C & [e1 R1] & [e2 R2]) | (C & V1 & V2)].
  - repeat split; eauto; try tauto; rewrite ?R1, ?R2; discriminate.
  - repeat split; auto; try tauto; rewrite ?V1, ?V2; intros [e E]; discriminate.
Qed.

(** The gate on the three plays of the worked example. *)
Lemma quality_gate_witness :
  (exists e, value (Data_Quality df_three_plays) = Raise e)
    <-> shares_played_at df_three_plays \/ has_null df_three_plays.
Proof.
  apply (quality_gate_raises_iff_duplicate_or_null df_three_plays);
    [reflexivity | discriminate].
Defined.

(** C2, as stated, fails: a batch with an empty (but not null) required
    field passes both gates. *)
Lemma quality_gate_accepts_empty_string :
  has_empty_field df_blank_song
  /\ value (Data_Quality df_blank_song) = Ok true
  /\ value (data_quality df_blank_song) = Ok true.
Proof.
  repeat split; try reflexivity.
  exists (Events.mk (PStr "") (PStr "A") (PStr "2024-01-01T10:00:00Z") (PStr "2024-01-01")).
  split; [now left | now left].
Qed.

Lemma fav_key_of_count (f : DataFrame -> nat) (df : DataFrame) (ks : list key) :
  map fav_key (map (Fav_of_count f df) ks) = ks.
Proof.
  rewrite map_map. rewrite <- (map_id ks) at 2.
  apply map_ext. now intros [t a].
Qed.

(** C1: on a validated batch of events both aggregators return the same
    frame, with exactly one record per (date, artist) pair of the batch,
    whose count is the number of events of the batch with that pair. *)
Theorem aggregation_counts_each_pair_once (df : DataFrame) :
  events_frame df = true ->
  value (Data_Quality df) = Ok true ->
  exists out,
    Transform_df df = Ok out
    /\ value (transform_df df) = Ok out
    /\ NoDup (map fav_key out)
    /\ (forall t a, In (t, a) (map fav_key out) <-> occurs t a df)
    /\ (forall x, In x out ->
          Fav.count x = occurrences (Fav.timestamp x) (Fav.artist_name x) df
          /\ Fav.ID x = (Fav.timestamp x ++ "-" ++ Fav.artist_name x)%string).
Proof.
  intros T V. apply Data_Quality_passed in V. destruct V as (NE & _ & N).
  pose proof (events_frame_keys_hashable df T) as H.
  exists (map (Fav_of_count size df) (sorted_keys df)).
  split; [|split; [|split; [|split]]].
  - rewrite Transform_df_eq, H. f_equal. apply map_ext. intros k.
    unfold Fav_of_count. now rewrite count_group.
  - now rewrite transform_df_eq, H, (empty_false df NE).
  - rewrite fav_key_of_count. apply strictly_sorted_NoDup, sorted_keys_sorted.
  - intros t a. rewrite fav_key_of_count, sorted_keys_In. unfold occurs.
    split; intros [r [Hr K]]; exists r; split; auto; now apply row_key_Some.
  - intros x Hx. apply in_map_iff in Hx. destruct Hx as [[t a] [<- _]].
    unfold Fav_of_count. simpl. split; [apply size_group | reflexivity].
Qed.

(** The aggregation of the three plays of the worked example. *)
Lemma aggregation_witness :
  exists out,
    Transform_df df_three_plays = Ok out
    /\ value (transform_df df_three_plays) = Ok out
    /\ NoDup (map fav_key out)
    /\ (forall t a, In (t, a) (map fav_key out) <-> occurs t a df_three_plays)
    /\ (forall x, In x out ->
          Fav.count x = occurrences (Fav.timestamp x) (Fav.artist_name x) df_three_plays
          /\ Fav.ID x = (Fav.timestamp x ++ "-" ++ Fav.artist_name x)%string).
Proof.
  apply (aggregation_counts_each_pair_once df_three_plays); reflexivity.
Defined.

(** C10, as amended: on a batch that has at least one event and no null
    value, [Transform_df] (the non-null [played_at] cells of each group) and
    [transform_df] (the size of each group) return the same records, or
    raise the same exception. *)
Theorem aggregators_agree_on_nonempty_batches (df : DataFrame) :
  df <> [] ->
  ~ has_null df ->
  Transform_df df = value (transform_df df).
Proof.
  intros NE N.
  assert (Z : isnull_any df = false).
  { destruct (isnull_any df) eqn:E; [|reflexivity].
    exfalso. apply N. now apply isnull_any_has_null. }
  rewrite Transform_df_eq, transform_df_eq, (empty_false df NE), andb_true_r.
  destruct (keys_hashable df); [|reflexivity].
  f_equal. apply map_ext. intros k. unfold Fav_of_count. now rewrite count_group.
Qed.

Lemma no_null_three_plays : ~ has_null df_three_plays.
Proof.
  intros H. apply isnull_any_has_null in H. discriminate.
Defined.

(** Both aggregators on the three plays of the worked example. *)
Lemma aggregators_agree_witness :
  Transform_df df_three_plays = value (transform_df df_three_plays).
Proof.
  apply (aggregators_agree_on_nonempty_batches df_three_plays).
  - discriminate.
  - exact no_null_three_plays.
Defined.

(** C10, as stated, fails on the batch without events, which has no null
    value: [Transform_df], which casts the date column to [str], returns
    the aggregate without records; [transform_df], which does not, raises
    a [TypeError]. *)
Lemma aggregators_differ_on_the_empty_batch :
  ~ has_null []
  /\ Transform_df [] = Ok []
  /\ value (transform_df []) = Raise TypeError.
Proof.
  split; [|split; reflexivity].
  intros [r [[] _]].
Qed.

(** ** Identifiers and their order *)

Section Identifiers.

Lemma compare_append_same_length (t1 t2 x y : string) :
  String.length t1 = String.length t2 ->
  String.compare (t1 ++ x) (t2 ++ y) =
  match String.compare t1 t2 with
  | Eq => String.compare x y
  | c => c
  end.
Proof.
  revert t2. induction t1 as [|c1 t1 IH]; intros [|c2 t2]; simpl; try discriminate.
  - reflexivity.
  - intros E. injection E as E.
    destruct (Ascii.compare c1 c2); auto.
Qed.

Lemma compare_dash (a1 a2 : string) :
  String.compare ("-" ++ a1) ("-" ++ a2) = String.compare a1 a2.
Proof. reflexivity. Qed.

Lemma id_lt_of_key_lt (k1 k2 : key) :
  String.length (fst k1) = String.length (fst k2) ->
  key_lt k1 k2 ->
  id_lt (fst k1 ++ "-" ++ snd k1) (fst k2 ++ "-" ++ snd k2).
Proof.
  unfold key_lt, id_lt, key_compare. intros L.
  rewrite (compare_append_same_length _ _ _ _ L), compare_dash. auto.
Qed.

Lemma append_injective_same_length (t1 t2 x y : string) :
  String.length t1 = String.length t2 ->
  (t1 ++ x = t2 ++ y)%string -> t1 = t2 /\ x = y.
Proof.
  revert t2. induction t1 as [|c1 t1 IH]; intros [|c2 t2]; simpl; try discriminate.
  - auto.
  - intros L E. injection L as L. injection E as -> E.
    destruct (IH t2 L E) as [-> ->]. auto.
Qed.

Lemma dates_of_length_keys (n : nat) (df : DataFrame) (k : key) :
  dates_of_length n df = true -> In k (sorted_keys df) ->
  String.length (fst k) = n.
Proof.
  unfold dates_of_length. rewrite forallb_forall, sorted_keys_In.
  intros H [r [Hr K]]. specialize (H r Hr).
  destruct k as [t a]. apply row_key_Some in K. destruct K as [Kt _].
  rewrite Kt in H. now apply Nat.eqb_eq in H.
Qed.

Lemma StronglySorted_map_in {A B} (R : A -> A -> Prop) (R' : B -> B -> Prop)
      (f : A -> B) (l : list A) :
  (forall x y, In x l -> In y l -> R x y -> R' (f x) (f y)) ->
  StronglySorted R l -> StronglySorted R' (map f l).
Proof.
  intros H S. induction S as [|a l S IH F]; simpl; constructor.
  - apply IH. intros x y Hx Hy. apply H; now right.
  - rewrite Forall_forall in *. intros b Hb. apply in_map_iff in Hb.
    destruct Hb as [y [<- Hy]]. apply H; [now left | now right | now apply F].
Qed.

(** What either aggregator returns, when it returns. *)
Lemma aggregate_of_shape (df : DataFrame) (out : list Fav.row) :
  aggregate_of df out ->
  exists f, out = map (Fav_of_count f df) (sorted_keys df).
Proof.
  unfold aggregate_of. rewrite Transform_df_eq, transform_df_eq.
  destruct (keys_hashable df), (empty df); simpl; intros [E|E];
    try discriminate; injection E as <-; eauto.
Qed.

End Identifiers.

(** C8, as amended: the aggregators do not depend on the order of the
    batch (the same events in any order give the same result), their output
    is in ascending order of (date, artist_name), and it is in ascending
    order of id whenever all dates of the batch have the same length. *)
Theorem aggregation_order_independent_and_sorted
        (df df' : DataFrame) (out : list Fav.row) (n : nat) :
  Permutation df df' ->
  aggregate_of df out ->
  Transform_df df' = Transform_df df
  /\ value (transform_df df') = value (transform_df df)
  /\ StronglySorted key_lt (map fav_key out)
  /\ (dates_of_length n df = true -> StronglySorted id_lt (map Fav.ID out)).
Proof.
  intros P A.
  split; [|split; [|split]].
  - rewrite !Transform_df_eq.
    rewrite <- (keys_hashable_Permutation df df' P), <- (sorted_keys_Permutation df df' P).
    destruct (keys_hashable df); [|reflexivity].
    f_equal. apply map_ext. intros k. unfold Fav_of_count. f_equal.
    apply count_notnull_Permutation, Permutation_sym, group_Permutation, P.
  - rewrite !transform_df_eq.
    rewrite <- (keys_hashable_Permutation df df' P), <- (sorted_keys_Permutation df df' P).
    replace (empty df') with (empty df)
      by (destruct df, df'; try reflexivity;
          [ apply Permutation_nil in P | apply Permutation_sym, Permutation_nil in P ];
          discriminate).
    destruct (keys_hashable df && negb (empty df)); [|reflexivity].
    f_equal. apply map_ext. intros k. unfold Fav_of_count, size. f_equal.
    apply Permutation_length, Permutation_sym, group_Permutation, P.
  - destruct (aggregate_of_shape df out A) as [f ->].
    rewrite fav_key_of_count. apply sorted_keys_sorted.
  - intros D. destruct (aggregate_of_shape df out A) as [f ->].
    rewrite map_map. simpl.
    apply (StronglySorted_map_in key_lt id_lt); [|apply sorted_keys_sorted].
    intros k1 k2 H1 H2. apply id_lt_of_key_lt.
    now rewrite (dates_of_length_keys n df k1 D H1), (dates_of_length_keys n df k2 D H2).
Qed.

Lemma three_plays_reordered : Permutation df_three_plays df_three_plays_reordered.
Proof.
  unfold df_three_plays, df_three_plays_reordered.
  eapply perm_trans; [apply perm_skip, perm_swap | apply perm_swap].
Defined.

Lemma aggregate_of_three_plays :
  aggregate_of df_three_plays
    [ Fav.mk "2024-01-01-A" "2024-01-01" "A" 2;
      Fav.mk "2024-01-01-B" "2024-01-01" "B" 1 ].
Proof. left. reflexivity. Defined.

(** The three plays and a reordering of them. *)
Lemma aggregation_order_witness :
  Transform_df df_three_plays_reordered = Transform_df df_three_plays
  /\ value (transform_df df_three_plays_reordered) = value (transform_df df_three_plays)
  /\ StronglySorted key_lt [("2024-01-01", "A"); ("2024-01-01", "B")]
  /\ (dates_of_length 10 df_three_plays = true ->
      StronglySorted id_lt ["2024-01-01-A"; "2024-01-01-B"]).
Proof.
  exact (aggregation_order_independent_and_sorted
           df_three_plays df_three_plays_reordered _ 10
           three_plays_reordered aggregate_of_three_plays).
Defined.

(** C8, as stated, fails: a validated batch whose output is not in
    ascending order of id. *)
Lemma ids_not_ascending_for_short_dates :
  events_frame df_short_dates = true
  /\ value (Data_Quality df_short_dates) = Ok true
  /\ Transform_df df_short_dates
     = Ok [ Fav.mk "2024-z" "2024" "z" 1; Fav.mk "2024--a" "2024-" "a" 1 ]
  /\ value (transform_df df_short_dates)
     = Ok [ Fav.mk "2024-z" "2024" "z" 1; Fav.mk "2024--a" "2024-" "a" 1 ]
  /\ String.compare "2024-z" "2024--a" = Gt.
Proof. repeat split. Qed.

(** C9: among the records aggregated from batches whose dates are strings
    of ten characters, the id determines the (date, artist_name) pair. *)
Theorem id_determines_date_and_artist
        (df1 df2 : DataFrame) (out1 out2 : list Fav.row) (x y : Fav.row) :
  dates_of_length 10 df1 = true ->
  dates_of_length 10 df2 = true ->
  aggregate_of df1 out1 ->
  aggregate_of df2 out2 ->
  In x out1 -> In y out2 ->
  Fav.ID x = Fav.ID y ->
  Fav.timestamp x = Fav.timestamp y /\ Fav.artist_name x = Fav.artist_name y.
Proof.
  intros D1 D2 A1 A2 Hx Hy E.
  destruct (aggregate_of_shape df1 out1 A1) as [f1 ->].
  destruct (aggregate_of_shape df2 out2 A2) as [f2 ->].
  apply in_map_iff in Hx. destruct Hx as [k1 [<- H1]].
  apply in_map_iff in Hy. destruct Hy as [k2 [<- H2]].
  simpl in *.
  pose proof (dates_of_length_keys 10 df1 k1 D1 H1) as L1.
  pose proof (dates_of_length_keys 10 df2 k2 D2 H2) as L2.
  destruct (append_injective_same_length (fst k1) (fst k2) _ _
              (eq_trans L1 (eq_sym L2)) E) as [Et Ea].
  split; [assumption|]. now injection Ea.
Qed.

(** Two batches with a play of artist A on the same day. *)
Lemma id_determines_witness :
  Fav.timestamp (Fav.mk "2024-01-01-A" "2024-01-01" "A" 2)
  = Fav.timestamp (Fav.mk "2024-01-01-A" "2024-01-01" "A" 1)
  /\ Fav.artist_name (Fav.mk "2024-01-01-A" "2024-01-01" "A" 2)
     = Fav.artist_name (Fav.mk "2024-01-01-A" "2024-01-01" "A" 1).
Proof.
  apply (id_determines_date_and_artist
           df_three_plays df_late_play
           [ Fav.mk "2024-01-01-A" "2024-01-01" "A" 2;
             Fav.mk "2024-01-01-B" "2024-01-01" "B" 1 ]
           [ Fav.mk "2024-01-01-A" "2024-01-01" "A" 1 ]).
  - reflexivity.
  - reflexivity.
  - left. reflexivity.
  - left. reflexivity.
  - left. reflexivity.
  - left. reflexivity.
  - reflexivity.
Defined.

(** ** Extraction *)

(** C5 fails on the code: with one item lacking [track.album.artists]
    among well-formed ones, [return_dataframe] logs the warning and then
    fails as a whole (the song name of the skipped item was already
    appended, so the columns differ in length), and
    [get_recently_played_tracks] fails with the [KeyError]. *)
Lemma item_without_artists_fails_extraction :
  return_dataframe response_one_without_artists
  = ([ (INFO, ExtractionStarted); (WARNING, ItemSkipped "artists") ],
     Raise (ValueError "All arrays must be of the same length"))
  /\ get_recently_played_tracks response_one_without_artists
     = Raise (KeyError "artists").
Proof. split; reflexivity. Qed.

(** The tolerance works when the first lookup of the body already fails. *)
Lemma item_without_track_is_skipped :
  return_dataframe response_one_without_track
  = ([ (INFO, ExtractionStarted); (WARNING, ItemSkipped "track");
       (INFO, Extracted 2) ],
     Ok [ ev "s1" "A" "2024-01-01T10:00:00Z"; ev "s3" "B" "2024-01-01T12:00:00Z" ]).
Proof. reflexivity. Qed.

(** C6 fails on the code: for a body without [items], [return_dataframe]
    returns an empty batch, while [get_recently_played_tracks] fails. *)
Lemma response_without_items_yields_empty_batch :
  return_dataframe response_without_items
  = ([ (INFO, ExtractionStarted); (INFO, Extracted 0) ], Ok [])
  /\ get_recently_played_tracks response_without_items = Raise RuntimeError.
Proof. split; reflexivity. Qed.

(** The same for every body: a dict without [items] gives the empty batch
    in [return_dataframe] ... *)
Lemma return_dataframe_without_items (kvs : list (string * pyobj)) :
  lookup "items" kvs = None ->
  return_dataframe (HttpBody (PDict kvs))
  = ([ (INFO, ExtractionStarted); (INFO, Extracted 0) ], Ok []).
Proof.
  intros H. unfold return_dataframe, IO.bind, IO.lift, IO.log, IO.ret, get_or_empty.
  cbn [fst snd app]. rewrite H. reflexivity.
Qed.

(** ... and every body in which ["items" in data] is false makes
    [get_recently_played_tracks] raise. *)
Lemma get_recently_played_tracks_without_items (data : pyobj) :
  contains data "items" = Ok false ->
  get_recently_played_tracks (HttpBody data) = Raise RuntimeError.
Proof.
  intros H. unfold get_recently_played_tracks. simpl. rewrite H. reflexivity.
Qed.

(** *** Why a partly read item fails [return_dataframe] *)

Section PartialItems.

Lemma value_bind_log {A} (l : level) (m : message) (k : M A) :
  value (IO.bind (log l m) (fun _ => k)) = value k.
Proof. unfold value, IO.bind, log. destruct k as [o r]. reflexivity. Qed.

Lemma item_body_not_ahead (it : pyobj) (c : columns) :
  not_ahead c -> not_ahead (fst (item_body it c)).
Proof.
  unfold not_ahead, item_body. intros H.
  repeat match goal with
         | |- context [match ?x with Ok _ => _ | Raise _ => _ end] => destruct x
         end; simpl; rewrite ?length_app; simpl; lia.
Qed.

Lemma item_body_skewed (it : pyobj) (c : columns) :
  skewed c -> skewed (fst (item_body it c)).
Proof.
  unfold skewed, item_body. intros H.
  repeat match goal with
         | |- context [match ?x with Ok _ => _ | Raise _ => _ end] => destruct x
         end; simpl; rewrite ?length_app; simpl; lia.
Qed.

(** An item whose name is read and whose body then raises leaves the
    columns skewed. *)
Lemma item_body_partial (it : pyobj) (c : columns) (name : pyobj) (e : exn) :
  (t <- getitem it "track" ;; getitem t "name")%res = Ok name ->
  snd (item_body it c) = Raise e ->
  not_ahead c -> skewed (fst (item_body it c)).
Proof.
  unfold not_ahead, skewed, item_body. intros N R H. rewrite N in *.
  repeat match goal with
         | |- context [match ?x with Ok _ => _ | Raise _ => _ end] => destruct x
         end; simpl in *; rewrite ?length_app; simpl; try lia; discriminate.
Qed.

Lemma item_body_result (it : pyobj) (c c' : columns) :
  snd (item_body it c) = snd (item_body it c').
Proof.
  unfold item_body.
  repeat match goal with
         | |- context [match ?x with Ok _ => _ | Raise _ => _ end] => destruct x
         end; reflexivity.
Qed.

Lemma for_items_skewed (items : list pyobj) (c c' : columns) :
  skewed c -> value (SpotifyEtl.for_items items c) = Ok c' -> skewed c'.
Proof.
  revert c. induction items as [|it items IH]; intros c S V;
    cbn [SpotifyEtl.for_items] in V.
  - unfold value in V. simpl in V. now injection V as <-.
  - pose proof (item_body_skewed it c S) as S1.
    destruct (item_body it c) as [c1 [u|e]]; cbn [fst] in S1.
    + eauto.
    + destruct e; try discriminate.
      rewrite value_bind_log in V. eauto.
Qed.

Lemma for_items_not_ahead (items : list pyobj) (c c' : columns) :
  not_ahead c -> value (SpotifyEtl.for_items items c) = Ok c' -> not_ahead c'.
Proof.
  revert c. induction items as [|it items IH]; intros c S V;
    cbn [SpotifyEtl.for_items] in V.
  - unfold value in V. simpl in V. now injection V as <-.
  - pose proof (item_body_not_ahead it c S) as S1.
    destruct (item_body it c) as [c1 [u|e]]; cbn [fst] in S1.
    + eauto.
    + destruct e; try discriminate.
      rewrite value_bind_log in V. eauto.
Qed.

Lemma for_items_app (l1 l2 : list pyobj) (c : columns) :
  value (SpotifyEtl.for_items (l1 ++ l2) c)
  = match value (SpotifyEtl.for_items l1 c) with
    | Ok c' => value (SpotifyEtl.for_items l2 c')
    | Raise e => Raise e
    end.
Proof.
  revert c. induction l1 as [|it l1 IH]; intros c;
    cbn [SpotifyEtl.for_items app]; [reflexivity|].
  destruct (item_body it c) as [c1 [u|e]]; [apply IH|].
  destruct e; try reflexivity.
  rewrite !value_bind_log. apply IH.
Qed.

Lemma frame_of_skewed (c : columns) :
  skewed c -> frame_of c = Raise (ValueError "All arrays must be of the same length").
Proof.
  unfold skewed, frame_of, of_columns. intros S.
  destruct (List.length (song_names c) =? List.length (artist_names c))%nat eqn:E1;
    [|reflexivity].
  destruct (List.length (artist_names c) =? List.length (played_at_list c))%nat eqn:E2;
    [|reflexivity].
  destruct (List.length (played_at_list c) =? List.length (timestamps c))%nat eqn:E3;
    [|reflexivity].
  apply Nat.eqb_eq in E1, E2, E3. lia.
Qed.

Lemma return_dataframe_value (items : list pyobj) :
  value (return_dataframe (body_of items))
  = match value (SpotifyEtl.for_items items no_columns) with
    | Ok c => frame_of c
    | Raise e => Raise e
    end.
Proof.
  unfold return_dataframe, body_of, value, IO.bind, IO.lift, IO.log, IO.ret.
  simpl. destruct (SpotifyEtl.for_items items no_columns) as [o [c|e]]; simpl;
    [|reflexivity].
  destruct (frame_of c); reflexivity.
Qed.

(** Whatever the other items are: if the name of one item is read and a
    later lookup of its body raises a [KeyError], [return_dataframe] does
    not return a frame. *)
Lemma partly_read_item_fails_return_dataframe
      (before after : list pyobj) (it name : pyobj) (k : string) :
  (t <- getitem it "track" ;; getitem t "name")%res = Ok name ->
  snd (item_body it no_columns) = Raise (KeyError k) ->
  exists e, value (return_dataframe (body_of (before ++ it :: after))) = Raise e.
Proof.
  intros N R. rewrite return_dataframe_value, for_items_app.
  destruct (value (SpotifyEtl.for_items before no_columns)) as [c0|e] eqn:V0; [|eauto].
  assert (H0 : not_ahead c0).
  { apply (for_items_not_ahead before no_columns); [|assumption].
    unfold not_ahead. simpl. lia. }
  rewrite (item_body_result it no_columns c0) in R.
  pose proof (item_body_partial it c0 name _ N R H0) as S1.
  cbn [SpotifyEtl.for_items]. destruct (item_body it c0) as [c1 r].
  cbn [fst snd] in R, S1. subst r.
  rewrite value_bind_log.
  destruct (value (SpotifyEtl.for_items after c1)) as [c2|e] eqn:V2; [|eauto].
  rewrite (frame_of_skewed c2); [eauto|].
  eapply for_items_skewed; eassumption.
Qed.

End PartialItems.

(** ** The store *)

Section InsertFacts.

Context {R : Type} (pk : R -> option string) (fit : R -> result R).

Lemma conflicts_In (k : string) (rs : list R) :
  conflicts pk k rs = true <-> In (Some k) (map pk rs).
Proof.
  unfold conflicts. rewrite existsb_exists, in_map_iff. split.
  - intros [r [Hr E]]. exists r. split; [|assumption].
    destruct (pk r) as [k'|]; [|discriminate].
    apply String.eqb_eq in E. now subst.
  - intros [r [E Hr]]. exists r. split; [assumption|].
    rewrite E. apply String.eqb_refl.
Qed.

(** A table without the constraint takes every row. *)
Lemma insert_rows_unconstrained (rs new : list R) :
  insert_rows pk fit false rs new = Ok (rs ++ new).
Proof.
  revert rs. induction new as [|r new IH]; simpl; intros rs.
  - now rewrite app_nil_r.
  - rewrite IH. now rewrite <- app_assoc.
Qed.

(** An accepted INSERT leaves the stored rows in place and adds one row per
    row of the batch. *)
Lemma insert_rows_added (c : bool) (rs new rs' : list R) :
  insert_rows pk fit c rs new = Ok rs' ->
  exists added, rs' = rs ++ added /\ List.length added = List.length new.
Proof.
  revert rs. induction new as [|r new IH]; simpl; intros rs H.
  - injection H as <-. exists []. now rewrite app_nil_r.
  - assert (G : forall x, insert_rows pk fit c (rs ++ [x]) new = Ok rs' ->
                exists added, rs' = rs ++ added
                              /\ List.length added = S (List.length new)).
    { intros x H'. destruct (IH _ H') as [added [-> L]].
      exists (x :: added). rewrite <- app_assoc. simpl. auto. }
    destruct c; [|eauto].
    destruct (fit r) as [x|]; [|discriminate].
    destruct (pk x) as [k|]; [|discriminate].
    destruct (conflicts pk k rs); [discriminate | eauto].
Qed.

Lemma insert_rows_NoDup (rs new rs' : list R) :
  insert_rows pk fit true rs new = Ok rs' ->
  NoDup (map pk rs) -> NoDup (map pk rs').
Proof.
  revert rs. induction new as [|r new IH]; simpl; intros rs H N.
  - now injection H as <-.
  - destruct (fit r) as [x|]; [|discriminate].
    destruct (pk x) as [k|] eqn:K; [|discriminate].
    destruct (conflicts pk k rs) eqn:C; [discriminate|].
    apply (IH _ H). rewrite map_app. simpl. rewrite K.
    apply NoDup_app; [assumption | repeat constructor; auto | ].
    intros y Hy [<-|[]]. apply conflicts_In in Hy. congruence.
Qed.

(** Rows that fit the columns, with distinct keys, none of them null or
    stored, all go in. *)
Lemma insert_rows_fresh (rs new : list R) :
  (forall r, In r new -> fit r = Ok r) ->
  NoDup (map pk new) ->
  (forall r, In r new -> exists k, pk r = Some k /\ ~ In (Some k) (map pk rs)) ->
  insert_rows pk fit true rs new = Ok (rs ++ new).
Proof.
  revert rs. induction new as [|r new IH]; simpl; intros rs Fit N F.
  - now rewrite app_nil_r.
  - inversion N as [|? ? Hr N']; subst.
    rewrite (Fit r (or_introl eq_refl)).
    destruct (F r (or_introl eq_refl)) as [k [K Hk]]. rewrite K.
    destruct (conflicts pk k rs) eqn:C.
    + apply conflicts_In in C. contradiction.
    + rewrite IH; [now rewrite <- app_assoc | auto | assumption |].
      intros r' Hr'. destruct (F r' (or_intror Hr')) as [k' [K' Hk']].
      exists k'. split; [assumption|].
      rewrite map_app, in_app_iff. simpl. intros [H|[H|[]]]; [contradiction|].
      apply Hr. rewrite H, <- K'. now apply in_map.
Qed.

(** Conversely, rows that fit the columns go in only if their keys are
    distinct, not null and not stored. *)
Lemma insert_rows_accepted (rs new rs' : list R) :
  (forall r, In r new -> fit r = Ok r) ->
  insert_rows pk fit true rs new = Ok rs' ->
  NoDup (map pk new)
  /\ forall r, In r new -> exists k, pk r = Some k /\ ~ In (Some k) (map pk rs).
Proof.
  revert rs. induction new as [|r new IH]; simpl; intros rs Fit H.
  - split; [constructor | contradiction].
  - rewrite (Fit r (or_introl eq_refl)) in H.
    destruct (pk r) as [k|] eqn:K; [|discriminate].
    destruct (conflicts pk k rs) eqn:C; [discriminate|].
    destruct (IH (rs ++ [r]) (fun x Hx => Fit x (or_intror Hx)) H) as [N F].
    assert (Cn : ~ In (Some k) (map pk rs)).
    { intros Hin. apply conflicts_In in Hin. congruence. }
    split.
    + constructor; [|assumption].
      intros Hin. apply in_map_iff in Hin. destruct Hin as [x [Kx Hx]].
      destruct (F x Hx) as [k' [K' Hk']]. apply Hk'.
      rewrite map_app, in_app_iff. right. simpl. left. congruence.
    + intros x [<-|Hx].
      * exists k. auto.
      * destruct (F x Hx) as [k' [K' Hk']]. exists k'. split; [assumption|].
        intros Hin. apply Hk'. rewrite map_app, in_app_iff. now left.
Qed.


End InsertFacts.

Section LoaderFacts.

Lemma with_tracks_same (st : store) : with_tracks st (my_played_tracks st) = st.
Proof. now destruct st. Qed.

Lemma with_fav_same (st : store) : with_fav st (fav_artist st) = st.
Proof. now destruct st. Qed.

(** A write to the events table prints nothing and touches nothing else. *)
Lemma tracks_to_sql_silent (mode : if_exists) (df : DataFrame) (st : store) :
  output (snd (tracks_to_sql mode df st)) = [].
Proof.
  unfold tracks_to_sql. destruct (available st); cbn [negb]; [|reflexivity].
  cbv zeta. destruct (Py.bind _ _); reflexivity.
Qed.

Lemma tracks_to_sql_store (mode : if_exists) (df : DataFrame) (st : store) :
  fst (tracks_to_sql mode df st)
  = with_tracks st (tracks_written mode df (available st) (render_list st)
                                   (my_played_tracks st)).
Proof.
  unfold tracks_to_sql, tracks_written.
  destruct (available st); cbn [negb]; [|now rewrite with_tracks_same].
  cbv zeta. destruct (Py.bind _ _); reflexivity.
Qed.

Lemma fav_to_sql_silent (mode : if_exists) (df : list Fav.row) (st : store) :
  output (snd (fav_to_sql mode df st)) = [].
Proof.
  unfold fav_to_sql. destruct (available st); cbn [negb]; [|reflexivity].
  cbv zeta. destruct df as [|x df]; [reflexivity|].
  destruct (existsb fav_has_nul (x :: df)); [reflexivity|].
  destruct (has_pk _); reflexivity.
Qed.

Lemma fav_to_sql_store (mode : if_exists) (df : list Fav.row) (st : store) :
  fst (fav_to_sql mode df st)
  = with_fav st (fav_written mode df (available st) (fav_artist st)).
Proof.
  unfold fav_to_sql, fav_written.
  destruct (available st); cbn [negb]; [|now rewrite with_fav_same].
  cbv zeta. destruct df as [|x df]; [reflexivity|].
  destruct (existsb fav_has_nul (x :: df)); [reflexivity|].
  cbn [orb]. destruct (has_pk _); reflexivity.
Qed.

(** The store after [load_data_to_db]: each table as its own write leaves
    it. *)
Lemma load_data_to_db_store (load_df : DataFrame) (tdf : list Fav.row) (st : store) :
  fst (Loader.load_data_to_db load_df tdf st)
  = mkstore (available st) (plain_sql st) (render_list st)
            (tracks_written Append load_df (available st) (render_list st)
                            (my_played_tracks st))
            (fav_written Append tdf (available st) (fav_artist st)).
Proof.
  pose proof (tracks_to_sql_store Append load_df st) as HT.
  unfold Loader.load_data_to_db, Sql.bind, Sql.try_except, print, IO.log.
  destruct (tracks_to_sql Append load_df st) as [st1 [o1 [[]|e1]]];
    cbn [fst] in HT; subst st1; cbv beta iota zeta;
    match goal with
    | |- context [fav_to_sql Append tdf ?s] =>
        pose proof (fav_to_sql_store Append tdf s) as HF;
        destruct (fav_to_sql Append tdf s) as [st2 [o2 [[]|e2]]]
    end; cbn [fst] in HF; subst st2; reflexivity.
Qed.

(** [load_data_to_db] returns normally whatever the two writes do. *)
Lemma load_data_to_db_returns (load_df : DataFrame) (tdf : list Fav.row) (st : store) :
  value (snd (Loader.load_data_to_db load_df tdf st)) = Ok tt.
Proof.
  unfold Loader.load_data_to_db, Sql.bind, Sql.try_except, print.
  destruct (tracks_to_sql Append load_df st) as [st1 [o1 [[]|e1]]]; simpl;
    destruct (fav_to_sql Append tdf st1) as [st2 [o2 [[]|e2]]]; reflexivity.
Qed.

(** It prints two lines: for each write its success line, or the exception
    of the write. *)
Lemma load_data_to_db_output (load_df : DataFrame) (tdf : list Fav.row) (st : store) :
  output (snd (Loader.load_data_to_db load_df tdf st))
  = [ tracks_line (value (snd (tracks_to_sql Append load_df st)));
      fav_line (value (snd (fav_to_sql Append tdf
                                       (fst (tracks_to_sql Append load_df st))))) ].
Proof.
  pose proof (tracks_to_sql_silent Append load_df st) as ST.
  unfold Loader.load_data_to_db, Sql.bind, Sql.try_except, print, IO.log,
    value, output in *.
  destruct (tracks_to_sql Append load_df st) as [st1 [o1 [[]|e1]]];
    cbn [fst snd] in *; subst o1;
    pose proof (fav_to_sql_silent Append tdf st1) as SF; unfold output in SF;
    destruct (fav_to_sql Append tdf st1) as [st2 [o2 [[]|e2]]];
    cbn [fst snd] in *; subst o2; reflexivity.
Qed.

Lemma plain_cell_adapt (render : list pyobj -> result string) (o : pyobj) :
  plain_cell o = true -> adapt render o = Ok (sql_of o).
Proof.
  destruct o as [|s| |]; simpl; intros H; try discriminate; [reflexivity|].
  destruct (has_nul s); [discriminate | reflexivity].
Qed.

(** The driver takes a frame of plain cells as it is. *)
Lemma plain_frame_adapt (render : list pyobj -> result string) (df : DataFrame) :
  plain_frame df = true -> adapt_frame render df = Ok (map to_track df).
Proof.
  unfold plain_frame. induction df as [|r df IH]; simpl; [reflexivity|].
  rewrite andb_true_iff. intros [Tr T]. rewrite (IH T).
  unfold plain_row in Tr. rewrite !andb_true_iff in Tr.
  destruct Tr as [[[Ts Ta] Tp] Tt].
  unfold adapt_row.
  now rewrite (plain_cell_adapt _ _ Ts), (plain_cell_adapt _ _ Ta),
    (plain_cell_adapt _ _ Tp), (plain_cell_adapt _ _ Tt).
Qed.

Lemma plain_cell_is_text (o : pyobj) : plain_cell o = true -> is_text o = true.
Proof. destruct o; simpl; intros H; try discriminate; reflexivity. Qed.

Lemma plain_frame_played_at (df : DataFrame) :
  plain_frame df = true -> forallb is_text (map Events.played_at df) = true.
Proof.
  unfold plain_frame. rewrite !forallb_forall. intros H o Ho.
  apply in_map_iff in Ho. destruct Ho as [r [<- Hr]].
  specialize (H r Hr). unfold plain_row in H. rewrite !andb_true_iff in H.
  apply plain_cell_is_text. tauto.
Qed.

Lemma short_cell_fits (o : pyobj) :
  short_cell o = true -> varchar200 (sql_of o) = Ok (sql_of o).
Proof.
  destruct o as [|s| |]; simpl; intros H; try reflexivity. now rewrite H.
Qed.

(** The columns take a short row as it is. *)
Lemma short_row_fits (r : Events.row) :
  short_row r = true -> fit_track (to_track r) = Ok (to_track r).
Proof.
  unfold short_row. rewrite !andb_true_iff. intros [[[Hs Ha] Hp] Ht].
  unfold fit_track, to_track. cbn [Tracks.song_name Tracks.artist_name
                                    Tracks.played_at Tracks.timestamp].
  now rewrite (short_cell_fits _ Hs), (short_cell_fits _ Ha),
    (short_cell_fits _ Hp), (short_cell_fits _ Ht).
Qed.

Lemma short_frame_fits (df : DataFrame) :
  short_frame df = true ->
  forall x, In x (map to_track df) -> fit_track x = Ok x.
Proof.
  unfold short_frame. rewrite forallb_forall. intros H x Hx.
  apply in_map_iff in Hx. destruct Hx as [r [<- Hr]].
  apply short_row_fits. auto.
Qed.

Lemma adapt_frame_length (render : list pyobj -> result string)
      (df : DataFrame) (new : list Tracks.row) :
  adapt_frame render df = Ok new -> List.length new = List.length df.
Proof.
  revert new. induction df as [|r df IH]; simpl; intros new H.
  - now injection H as <-.
  - destruct (adapt_row render r); [|discriminate]. cbn [Py.bind] in H.
    destruct (adapt_frame render df) as [xs|]; [|discriminate].
    cbn [Py.bind] in H. injection H as <-. simpl. now rewrite (IH xs).
Qed.

Lemma sql_of_injective (a b : pyobj) :
  is_text a = true -> is_text b = true -> sql_of a = sql_of b -> a = b.
Proof.
  destruct a, b; simpl; intros; try discriminate; congruence.
Qed.

Lemma NoDup_sql_of (col : list pyobj) :
  forallb is_text col = true -> NoDup col -> NoDup (map sql_of col).
Proof.
  intros T N. apply NoDup_map_NoDup_ForallPairs; [|assumption].
  rewrite forallb_forall in T.
  intros a b Ha Hb. apply sql_of_injective; auto.
Qed.

(** [new_keys], said of the rows that are stored. *)
Lemma new_keys_tracks (t : table Tracks.row) (df : DataFrame) :
  plain_frame df = true ->
  new_keys t df
  <-> NoDup (map Tracks.played_at (map to_track df))
      /\ forall x, In x (map to_track df) ->
           exists k, Tracks.played_at x = Some k
                     /\ ~ In (Some k) (map Tracks.played_at (rows t)).
Proof.
  intros Pl. pose proof (plain_frame_played_at df Pl) as Tp.
  unfold new_keys, track_keys.
  rewrite (map_map to_track Tracks.played_at). cbn [to_track Tracks.played_at].
  rewrite <- (map_map Events.played_at sql_of).
  split; intros [N F]; split.
  - now apply NoDup_sql_of.
  - intros x Hx. apply in_map_iff in Hx. destruct Hx as [r [<- Hr]].
    destruct (F r Hr) as [k [K Hk]]. exists k. cbn. now rewrite K.
  - eapply NoDup_map_inv. exact N.
  - intros r Hr. destruct (F (to_track r) (in_map _ _ _ Hr)) as [k [K Hk]].
    exists k. split; [|assumption]. cbn in K.
    destruct (Events.played_at r); simpl in K; try discriminate. congruence.
Qed.

Lemma adapt_hashable (render : list pyobj -> result string)
      (o : pyobj) (x : option string) :
  hashable o = true -> adapt render o = Ok x -> x = sql_of o.
Proof.
  destruct o as [|s| |]; simpl; intros H A; try discriminate.
  - now injection A as <-.
  - destruct (has_nul s); [discriminate|]. now injection A as <-.
Qed.

(** The keys that are stored for a frame whose [played_at] cells are
    strings or [None]. *)
Lemma adapt_frame_keys (render : list pyobj -> result string)
      (df : DataFrame) (new : list Tracks.row) :
  adapt_frame render df = Ok new ->
  forallb hashable (map Events.played_at df) = true ->
  map Tracks.played_at new = map sql_of (map Events.played_at df).
Proof.
  revert new. induction df as [|r df IH]; simpl; intros new A H.
  - now injection A as <-.
  - apply andb_true_iff in H. destruct H as [Hr H].
    destruct (adapt_row render r) as [x|] eqn:Ar; [|discriminate].
    cbn [Py.bind] in A.
    destruct (adapt_frame render df) as [xs|]; [|discriminate].
    cbn [Py.bind] in A. injection A as <-. simpl.
    rewrite (IH xs eq_refl H). f_equal.
    unfold adapt_row in Ar.
    destruct (adapt render (Events.song_name r)); [|discriminate].
    destruct (adapt render (Events.artist_name r)); [|discriminate].
    destruct (adapt render (Events.played_at r)) as [p|] eqn:Ap; [|discriminate].
    destruct (adapt render (Events.timestamp r)); [|discriminate].
    cbn [Py.bind] in Ar. injection Ar as <-. simpl.
    exact (adapt_hashable render _ p Hr Ap).
Qed.

Lemma hashable_is_text (col : list pyobj) :
  forallb hashable col = true -> forallb is_text col = true.
Proof.
  rewrite !forallb_forall. intros H x Hx. specialize (H x Hx).
  destruct x; simpl in *; congruence.
Qed.

(** The keys stored for a frame without nulls and without repeated
    [played_at]. *)
Lemma stored_keys (render : list pyobj -> result string)
      (df : DataFrame) (new : list Tracks.row) :
  adapt_frame render df = Ok new ->
  forallb hashable (map Events.played_at df) = true ->
  nodupb (map Events.played_at df) = true -> isnull_any df = false ->
  NoDup (map Tracks.played_at new) /\ ~ In None (map Tracks.played_at new).
Proof.
  intros A Hh U Z. rewrite (adapt_frame_keys render df new A Hh).
  apply hashable_is_text in Hh. split.
  - apply NoDup_sql_of; [assumption|]. now apply nodupb_NoDup.
  - rewrite map_map, in_map_iff. intros [r [E Hr]].
    pose proof (isnull_any_false df r Z Hr) as Nr.
    unfold row_isnull in Nr. rewrite !orb_false_iff in Nr.
    destruct Nr as [[[_ _] Np] _].
    rewrite forallb_forall in Hh.
    specialize (Hh (Events.played_at r) (in_map _ _ _ Hr)).
    destruct (Events.played_at r); simpl in *; discriminate.
Qed.

(** The events table after an append to the table of the [CREATE TABLE]
    statement. *)
Lemma tracks_append_constrained
      (df : DataFrame) (st : store) (t : table Tracks.row) :
  my_played_tracks st = Some t -> has_pk t = true ->
  (exists new rs,
      available st = true
      /\ adapt_frame (render_list st) df = Ok new
      /\ insert_rows Tracks.played_at fit_track true (rows t) new = Ok rs
      /\ tracks_written Append df (available st) (render_list st) (Some t)
         = Some (mktable true rs))
  \/ ((available st = false
       \/ (exists e, adapt_frame (render_list st) df = Raise e)
       \/ (exists new e,
              adapt_frame (render_list st) df = Ok new
              /\ insert_rows Tracks.played_at fit_track true (rows t) new = Raise e))
      /\ tracks_written Append df (available st) (render_list st) (Some t) = Some t).
Proof.
  intros T P. unfold tracks_written.
  destruct (available st); [|right; auto].
  cbn [prepare]. rewrite P.
  destruct (adapt_frame (render_list st) df) as [new|e]; cbn [Py.bind];
    [|right; split; [right; left; eauto | now destruct t; simpl in *; subst]].
  destruct (insert_rows Tracks.played_at fit_track true (rows t) new) as [rs|e] eqn:I.
  - left. exists new, rs. auto.
  - right. split; [right; right; eauto | now destruct t; simpl in *; subst].
Qed.

End LoaderFacts.

(** ** The two pipelines *)

Section Pipelines.

Import Dag Loader.

(** [spotify_etl] when the extraction returns no event. *)
Lemma spotify_etl_empty (response : http) :
  value (return_dataframe response) = Ok [] ->
  spotify_etl response
  = ((INFO, EtlStarted) :: output (return_dataframe response)
       ++ [ (INFO, QualityCheckStarted); (ERROR, FrameIsEmpty); (ERROR, EtlAborted) ],
     Ok []).
Proof.
  unfold spotify_etl, value, output.
  destruct (return_dataframe response) as [o r]. simpl. intros ->.
  unfold IO.try_except, IO.bind, IO.log, IO.ret. simpl.
  rewrite ?app_nil_r, <- ?app_assoc. reflexivity.
Qed.

(** What [spotify_etl] returns or raises, stage by stage. *)
Lemma spotify_etl_value (response : http) :
  value (spotify_etl response)
  = match value (return_dataframe response) with
    | Raise e => Raise e
    | Ok df =>
        match value (data_quality df) with
        | Raise e => Raise e
        | Ok false => Ok []
        | Ok true =>
            match value (transform_df df) with
            | Raise e => Raise e
            | Ok _ => Ok df
            end
        end
    end.
Proof.
  unfold spotify_etl, value, IO.try_except, IO.bind, IO.log, IO.ret, IO.raise.
  destruct (return_dataframe response) as [o1 [df|e]]; cbn [fst snd];
    [|reflexivity].
  destruct (data_quality df) as [o2 [[|]|e]]; cbn [fst snd negb];
    try reflexivity.
  destruct (transform_df df) as [o3 [x|e]]; reflexivity.
Qed.

(** When [spotify_etl] raises, the last line it logs is the exception. *)
Lemma spotify_etl_raises (response : http) (e : exn) :
  value (spotify_etl response) = Raise e ->
  exists before, output (spotify_etl response) = before ++ [ (ERROR, EtlFailed e) ].
Proof.
  unfold spotify_etl, value, output, IO.try_except, IO.bind, IO.log, IO.ret, IO.raise.
  destruct (return_dataframe response) as [o1 [df|e1]].
  - destruct (data_quality df) as [o2 [[|]|e2]].
    + destruct (transform_df df) as [o3 [x|e3]]; cbn [fst snd negb]; intros H;
        [discriminate|].
      injection H as <-.
      exists ((INFO, EtlStarted) :: o1 ++ o2 ++ o3).
      simpl. now rewrite <- !app_assoc.
    + cbn [fst snd negb]. discriminate.
    + cbn [fst snd]. intros H. injection H as <-.
      exists ((INFO, EtlStarted) :: o1 ++ o2). simpl. now rewrite <- !app_assoc.
  - cbn [fst snd]. intros H. injection H as <-.
    exists ((INFO, EtlStarted) :: o1). reflexivity.
Qed.

Lemma data_quality_passed (df : DataFrame) :
  value (data_quality df) = Ok true ->
  df <> [] /\ forallb hashable (map Events.played_at df) = true
  /\ nodupb (map Events.played_at df) = true /\ isnull_any df = false.
Proof.
  rewrite data_quality_value. intros H.
  destruct df as [|r df]; [discriminate|].
  cbn [empty] in H. unfold is_unique in H.
  destruct (forallb hashable (map Events.played_at (r :: df))); [|discriminate].
  destruct (nodupb (map Events.played_at (r :: df))); [|discriminate].
  destruct (isnull_any (r :: df)); [discriminate|].
  repeat split; congruence.
Qed.

(** A frame with events that [spotify_etl] returns has passed the gate. *)
Lemma spotify_etl_validated (response : http) (df : DataFrame) :
  value (spotify_etl response) = Ok df -> df <> [] ->
  value (return_dataframe response) = Ok df /\ value (data_quality df) = Ok true.
Proof.
  rewrite spotify_etl_value. intros V NE.
  destruct (value (return_dataframe response)) as [raw|]; [|discriminate].
  destruct (value (data_quality raw)) as [[|]|] eqn:Q; try discriminate.
  - destruct (value (transform_df raw)); [|discriminate].
    injection V as ->. auto.
  - injection V as <-. congruence.
Qed.

(** [etl_process] when [spotify_etl] raises. *)
Lemma etl_process_fails (response : http) (st : store) (e : exn) :
  value (spotify_etl response) = Raise e ->
  etl_process response st
  = (st, ((STDOUT, DagStarted) :: output (spotify_etl response)
            ++ [ (STDOUT, DagExtractionFailed e) ],
          Raise e)).
Proof.
  unfold etl_process, value, output, Sql.bind, Sql.try_except, Sql.lift, print.
  destruct (spotify_etl response) as [o r]. simpl. intros ->. simpl.
  rewrite ?app_nil_r, <- ?app_assoc. reflexivity.
Qed.

(** [etl_process] when [spotify_etl] returns an empty frame: the early
    [return]. *)
Lemma etl_process_empty (response : http) (st : store) :
  value (spotify_etl response) = Ok [] ->
  etl_process response st
  = (st, ((STDOUT, DagStarted) :: output (spotify_etl response)
            ++ [ (STDOUT, NoDataSkipLoad) ],
          Ok tt)).
Proof.
  unfold etl_process, value, output, Sql.bind, Sql.try_except, Sql.lift, print.
  destruct (spotify_etl response) as [o r]. simpl. intros ->. simpl.
  rewrite ?app_nil_r, <- ?app_assoc. reflexivity.
Qed.

(** [etl_process] when [spotify_etl] returns events: the write decides. *)
Lemma etl_process_loads (response : http) (st : store) (df : DataFrame) :
  value (spotify_etl response) = Ok df -> df <> [] ->
  etl_process response st
  = (fst (tracks_to_sql Replace df st),
     ((STDOUT, DagStarted) :: output (spotify_etl response)
        ++ match value (snd (tracks_to_sql Replace df st)) with
           | Ok _ => [ (STDOUT, DagLoaded (List.length df)) ]
           | Raise e => [ (STDOUT, DagLoadFailed e) ]
           end,
      value (snd (tracks_to_sql Replace df st)))).
Proof.
  pose proof (tracks_to_sql_silent Replace df st) as ST.
  unfold etl_process, value, output, Sql.bind, Sql.try_except, Sql.lift, print in *.
  destruct (spotify_etl response) as [o r]. simpl. intros -> NE.
  destruct df as [|r0 df]; [congruence|]. simpl.
  destruct (tracks_to_sql Replace (r0 :: df) st) as [st1 [o1 [[]|e]]];
    simpl in *; subst o1; now rewrite ?app_nil_r, <- ?app_assoc.
Qed.

(** A write with [if_exists="replace"] that the driver can adapt. *)
Lemma tracks_replace (df : DataFrame) (st : store) (new : list Tracks.row) :
  available st = true -> adapt_frame (render_list st) df = Ok new ->
  tracks_to_sql Replace df st
  = (with_tracks st (Some (mktable false new)), ([], Ok tt)).
Proof.
  intros A F. unfold tracks_to_sql. rewrite A, F. cbn [negb Py.bind].
  replace (prepare Replace (my_played_tracks st)) with (@mktable Tracks.row false [])
    by (now destruct (my_played_tracks st)).
  cbv zeta. cbn [has_pk rows].
  now rewrite insert_rows_unconstrained.
Qed.

(** The tables are created exactly when the script prints so. *)
Lemma create_tables_output (st : store) :
  value (snd (create_tables st)) = Ok tt ->
  output (snd (create_tables st)) = [ (STDOUT, TablesCreated) ].
Proof.
  unfold create_tables, create_my_played_tracks, create_fav_artist,
    Sql.bind, print, IO.log, IO.ret, IO.raise, value, output.
  destruct (available st); cbn [negb]; [|discriminate].
  destruct (plain_sql st); cbn [negb]; [|discriminate].
  destruct (my_played_tracks st) as [t|].
  - destruct (fav_artist st) as [f|]; [reflexivity|].
    destruct (constraint_name_taken st); [discriminate | reflexivity].
  - destruct (constraint_name_taken st); [discriminate|].
    cbn [with_tracks fav_artist].
    destruct (fav_artist st) as [f|]; [reflexivity|].
    destruct (constraint_name_taken _); [discriminate | reflexivity].
Qed.

(** The script from [create_tables] on: once the tables are there, it ends
    on its success line whatever the two writes did. *)
Lemma main_after_create_tables
      (load_df : DataFrame) (tdf : list Fav.row) (st : store) :
  value (Data_Quality load_df) = Ok true ->
  Transform_df load_df = Ok tdf ->
  value (snd (create_tables st)) = Ok tt ->
  main (Ok load_df) true st
  = (fst (load_data_to_db load_df tdf (fst (create_tables st))),
     ((STDOUT, Extracting) :: (STDOUT, CheckingQuality)
        :: output (Data_Quality load_df)
        ++ [ (STDOUT, Transforming); (STDOUT, Connecting);
             (STDOUT, TablesCreated); (STDOUT, Loading) ]
        ++ output (snd (load_data_to_db load_df tdf (fst (create_tables st))))
        ++ [ (STDOUT, ProcessSucceeded) ],
      Ok tt)).
Proof.
  intros Q T C. pose proof (create_tables_output st C) as O.
  pose proof (load_data_to_db_returns load_df tdf (fst (create_tables st))) as L.
  unfold value, output in *.
  cbv beta iota delta [main Sql.bind Sql.try_except Sql.lift print IO.log IO.lift
                       get_db_engine Sql.ret Sql.raise IO.ret IO.raise].
  destruct (Data_Quality load_df) as [o r]. cbn [fst snd] in *. subst r.
  cbv beta iota delta [negb]. rewrite T. cbv beta iota.
  destruct (create_tables st) as [st1 [oc rc]]. cbn [fst snd] in *. subst rc oc.
  cbv beta iota.
  destruct (load_data_to_db load_df tdf st1) as [st2 [o2 r2]].
  cbn [fst snd] in *. subst r2.
  cbn [app]. rewrite ?app_nil_r, <- ?app_assoc. reflexivity.
Qed.

End Pipelines.

(** ** The claims about empty batches, loading and failures *)

Section PipelineClaims.

Import Dag Loader.

(** C4, as amended: when the extraction returns no event, both quality
    gates return [False] without raising, and neither pipeline aggregates
    or writes to the store.  The DAG task [etl_process] then returns
    normally; the script [load_music_data_to_postgres.py] raises a
    [ValueError] of its own, catches it and ends on its error line. *)
Theorem empty_batch_skips_aggregation_and_load
        (response : http) (st : store) (db_env_set : bool) :
  value (return_dataframe response) = Ok [] ->
  value (data_quality []) = Ok false
  /\ value (Data_Quality []) = Ok false
  /\ etl_process response st
     = (st,
        ((STDOUT, DagStarted) :: (INFO, EtlStarted)
           :: output (return_dataframe response)
           ++ [ (INFO, QualityCheckStarted); (ERROR, FrameIsEmpty);
                (ERROR, EtlAborted); (STDOUT, NoDataSkipLoad) ],
         Ok tt))
  /\ main (Ok []) db_env_set st
     = (st,
        ([ (STDOUT, Extracting); (STDOUT, CheckingQuality);
           (STDOUT, NoSongsExtracted);
           (STDOUT, ProcessFailed (ValueError "data quality check failed")) ],
         Ok tt)).
Proof.
  intros E. pose proof (spotify_etl_empty response E) as S.
  repeat split.
  rewrite etl_process_empty; rewrite S; [|reflexivity].
  unfold output. simpl. now rewrite <- app_assoc.
Qed.

(** A run of the DAG task on a body without items. *)
Lemma empty_batch_witness :
  etl_process response_without_items store_after_one_run
  = (store_after_one_run,
     ([ (STDOUT, DagStarted); (INFO, EtlStarted);
        (INFO, ExtractionStarted); (INFO, Extracted 0);
        (INFO, QualityCheckStarted); (ERROR, FrameIsEmpty);
        (ERROR, EtlAborted); (STDOUT, NoDataSkipLoad) ],
      Ok tt)).
Proof.
  exact (proj1 (proj2 (proj2
    (empty_batch_skips_aggregation_and_load
       response_without_items store_after_one_run true eq_refl)))).
Defined.

(** C4, as stated, fails: on an empty batch the script does not report
    success, it ends on its error line. *)
Lemma script_reports_failure_on_empty_batch :
  value (Data_Quality []) = Ok false
  /\ main (Ok []) true store_after_one_run
     = (store_after_one_run,
        ([ (STDOUT, Extracting); (STDOUT, CheckingQuality);
           (STDOUT, NoSongsExtracted);
           (STDOUT, ProcessFailed (ValueError "data quality check failed")) ],
         Ok tt)).
Proof. split; reflexivity. Qed.

(** C3, as amended.  The script's [load_data_to_db] appends to the events
    table.  On the table of the [CREATE TABLE] statement, with its primary
    key, the rows stored before stay in place, followed by one row per event
    of the batch or by nothing, and no [played_at] is stored twice; a batch
    of plain cells that fit the columns is stored exactly when its
    [played_at] are strings that are new to the table and distinct, and
    leaves the table as it was otherwise.  The DAG task [etl_process] writes
    with [if_exists="replace"]: a run without events leaves the store as it
    was; a run with events, on a store that can be reached and whose driver
    adapts them, returns normally and leaves in the events table the rows of
    the batch and no other, without constraint, with no [played_at] null or
    repeated. *)
Theorem append_stores_new_keys_replace_keeps_batch
        (load_df : DataFrame) (tdf : list Fav.row) (st : store)
        (t : table Tracks.row)
        (response : http) (df : DataFrame) (st' : store)
        (new : list Tracks.row) :
  my_played_tracks st = Some t -> has_pk t = true -> NoDup (track_keys t) ->
  value (spotify_etl response) = Ok df ->
  available st' = true -> adapt_frame (render_list st') df = Ok new ->
  (exists t',
      my_played_tracks (fst (load_data_to_db load_df tdf st)) = Some t'
      /\ has_pk t' = true
      /\ NoDup (track_keys t')
      /\ (rows t' = rows t
          \/ exists added, rows t' = rows t ++ added
                           /\ List.length added = List.length load_df)
      /\ (available st = true ->
          plain_frame load_df = true -> short_frame load_df = true ->
          (new_keys t load_df -> rows t' = rows t ++ map to_track load_df)
          /\ (~ new_keys t load_df -> rows t' = rows t)))
  /\ (df = [] -> fst (etl_process response st') = st')
  /\ (df <> [] ->
      fst (etl_process response st') = with_tracks st' (Some (mktable false new))
      /\ value (snd (etl_process response st')) = Ok tt
      /\ NoDup (map Tracks.played_at new)
      /\ ~ In None (map Tracks.played_at new)).
Proof.
  intros T P N S A F. split; [|split].
  - rewrite load_data_to_db_store. cbn [my_played_tracks]. rewrite T.
    destruct (tracks_append_constrained load_df st t T P)
      as [(new0 & rs & Av & F0 & I & ->) | (Why & ->)].
    + exists (mktable true rs). cbn [has_pk rows].
      split; [reflexivity|]. split; [reflexivity|]. split.
      { unfold track_keys. cbn [rows]. eapply insert_rows_NoDup; eassumption. }
      split.
      { right. destruct (insert_rows_added _ _ _ _ _ _ I) as [added [-> L]].
        exists added. split; [reflexivity|].
        rewrite L. eapply adapt_frame_length; eassumption. }
      intros _ Pl Sh. rewrite (plain_frame_adapt _ _ Pl) in F0. injection F0 as <-.
      split.
      * intros NK. apply (new_keys_tracks t load_df Pl) in NK. destruct NK as [N1 N2].
        rewrite (insert_rows_fresh Tracks.played_at fit_track (rows t)
                   (map to_track load_df) (short_frame_fits load_df Sh) N1 N2) in I.
        now injection I as <-.
      * intros NK. exfalso. apply NK. apply (new_keys_tracks t load_df Pl).
        exact (insert_rows_accepted _ _ _ _ _ (short_frame_fits load_df Sh) I).
    + exists t. split; [reflexivity|]. split; [assumption|]. split; [assumption|].
      split; [now left|].
      intros Av Pl Sh. split; [|reflexivity].
      intros NK. exfalso.
      destruct Why as [D | [[e E] | (new0 & e & F0 & I)]].
      * congruence.
      * rewrite (plain_frame_adapt _ _ Pl) in E. discriminate.
      * rewrite (plain_frame_adapt _ _ Pl) in F0. injection F0 as <-.
        apply (new_keys_tracks t load_df Pl) in NK. destruct NK as [N1 N2].
        rewrite (insert_rows_fresh Tracks.played_at fit_track (rows t)
                   (map to_track load_df) (short_frame_fits load_df Sh) N1 N2) in I.
        discriminate.
  - intros ->. now rewrite (etl_process_empty response st' S).
  - intros NE. rewrite (etl_process_loads response st' df S NE).
    rewrite (tracks_replace df st' new A F). cbn [fst snd value].
    split; [reflexivity|]. split; [reflexivity|].
    destruct (spotify_etl_validated response df S NE) as [_ Q].
    destruct (data_quality_passed df Q) as (_ & Hh & U & Z).
    exact (stored_keys _ df new F Hh U Z).
Qed.

(** The script's loader on a table that holds one earlier play, with a batch
    that repeats it; the DAG task on a table that holds two plays, with a
    batch that repeats the second. *)
Lemma append_replace_witness :
  (exists t',
      my_played_tracks
        (fst (load_data_to_db df_overlapping [] store_with_history)) = Some t'
      /\ has_pk t' = true
      /\ NoDup (track_keys t')
      /\ (rows t' = [ old_track ]
          \/ exists added, rows t' = [ old_track ] ++ added
                           /\ List.length added = List.length df_overlapping)
      /\ (available store_with_history = true ->
          plain_frame df_overlapping = true -> short_frame df_overlapping = true ->
          (new_keys (mktable true [ old_track ]) df_overlapping ->
           rows t' = [ old_track ] ++ map to_track df_overlapping)
          /\ (~ new_keys (mktable true [ old_track ]) df_overlapping ->
              rows t' = [ old_track ])))
  /\ ([ ev "s1" "A" "2024-01-01T10:00:00Z" ] = [] ->
      fst (etl_process response_new_play store_after_two_plays)
      = store_after_two_plays)
  /\ ([ ev "s1" "A" "2024-01-01T10:00:00Z" ] <> [] ->
      fst (etl_process response_new_play store_after_two_plays)
      = with_tracks store_after_two_plays (Some (mktable false [ new_track ]))
      /\ value (snd (etl_process response_new_play store_after_two_plays)) = Ok tt
      /\ NoDup (map Tracks.played_at [ new_track ])
      /\ ~ In None (map Tracks.played_at [ new_track ])).
Proof.
  apply (append_stores_new_keys_replace_keeps_batch
           df_overlapping [] store_with_history (mktable true [ old_track ])
           response_new_play [ ev "s1" "A" "2024-01-01T10:00:00Z" ]
           store_after_two_plays [ new_track ]).
  - reflexivity.
  - reflexivity.
  - repeat constructor. simpl. tauto.
  - reflexivity.
  - reflexivity.
  - reflexivity.
Defined.

(** C3, as stated, fails: the batch of this run of the DAG task holds a
    [played_at] that is stored already, and after the run the row that an
    earlier run stored under another [played_at] is gone. *)
Lemma replace_drops_rows_with_other_keys :
  my_played_tracks store_after_two_plays
  = Some (mktable false [ old_track; new_track ])
  /\ value (spotify_etl response_new_play) = Ok [ ev "s1" "A" "2024-01-01T10:00:00Z" ]
  /\ In (Some "2024-01-01T10:00:00Z")
        (track_keys (mktable false [ old_track; new_track ]))
  /\ fst (etl_process response_new_play store_after_two_plays)
     = with_tracks store_after_two_plays (Some (mktable false [ new_track ]))
  /\ value (snd (etl_process response_new_play store_after_two_plays)) = Ok tt.
Proof.
  split; [reflexivity|]. split; [reflexivity|]. split; [simpl; auto|].
  split; reflexivity.
Qed.

End PipelineClaims.

Section FailureClaims.

Import Dag Loader.

(** C7, as amended: in the DAG task [etl_process] the exception of a failed
    write is printed and raised again unchanged, so the task fails with it.
    The script's [load_data_to_db] catches the exception of each of its two
    writes and prints it in the place of that write's success line: it
    always returns normally, and once [create_tables] has returned the
    script ends on its success line whatever the two writes did. *)
Theorem load_failure_raised_by_dag_swallowed_by_script
        (response : http) (st : store) (df : DataFrame) (e : exn)
        (load_df : DataFrame) (tdf : list Fav.row) (st' : store) :
  value (spotify_etl response) = Ok df -> df <> [] ->
  value (snd (tracks_to_sql Replace df st)) = Raise e ->
  value (Data_Quality load_df) = Ok true ->
  Transform_df load_df = Ok tdf ->
  value (snd (create_tables st')) = Ok tt ->
  (value (snd (etl_process response st)) = Raise e
   /\ output (snd (etl_process response st))
      = (STDOUT, DagStarted) :: output (spotify_etl response)
          ++ [ (STDOUT, DagLoadFailed e) ])
  /\ (forall s : store,
        value (snd (load_data_to_db load_df tdf s)) = Ok tt
        /\ output (snd (load_data_to_db load_df tdf s))
           = [ tracks_line (value (snd (tracks_to_sql Append load_df s)));
               fav_line (value (snd (fav_to_sql Append tdf
                                       (fst (tracks_to_sql Append load_df s))))) ])
  /\ (value (snd (main (Ok load_df) true st')) = Ok tt
      /\ output (snd (main (Ok load_df) true st'))
         = (STDOUT, Extracting) :: (STDOUT, CheckingQuality)
             :: output (Data_Quality load_df)
             ++ [ (STDOUT, Transforming); (STDOUT, Connecting);
                  (STDOUT, TablesCreated); (STDOUT, Loading);
                  tracks_line
                    (value (snd (tracks_to_sql Append load_df
                                   (fst (create_tables st')))));
                  fav_line
                    (value (snd (fav_to_sql Append tdf
                                   (fst (tracks_to_sql Append load_df
                                           (fst (create_tables st')))))));
                  (STDOUT, ProcessSucceeded) ]).
Proof.
  intros S NE R Q T C. split; [|split].
  - rewrite (etl_process_loads response st df S NE).
    unfold value, output in *. cbn [fst snd]. rewrite R. split; reflexivity.
  - intros s. split; [apply load_data_to_db_returns | apply load_data_to_db_output].
  - rewrite (main_after_create_tables load_df tdf st' Q T C).
    pose proof (load_data_to_db_output load_df tdf (fst (create_tables st'))) as O.
    unfold value, output in *. cbn [fst snd].
    split; [reflexivity|]. rewrite O. reflexivity.
Qed.

(** The DAG task on a store that cannot be reached; the script on a store
    whose events table pandas made, so that [create_tables] makes the
    aggregate table, which then refuses the aggregate. *)
Lemma load_failure_witness :
  (value (snd (etl_process response_new_play store_down))
   = Raise (StoreError "could not connect to server")
   /\ output (snd (etl_process response_new_play store_down))
      = (STDOUT, DagStarted) :: output (spotify_etl response_new_play)
          ++ [ (STDOUT, DagLoadFailed (StoreError "could not connect to server")) ])
  /\ (forall s : store,
        value (snd (load_data_to_db df_overlapping
                      [ Fav.mk "2023-12-31-B" "2023-12-31" "B" 1;
                        Fav.mk "2024-01-01-A" "2024-01-01" "A" 1 ] s)) = Ok tt
        /\ output (snd (load_data_to_db df_overlapping
                          [ Fav.mk "2023-12-31-B" "2023-12-31" "B" 1;
                            Fav.mk "2024-01-01-A" "2024-01-01" "A" 1 ] s))
           = [ tracks_line (value (snd (tracks_to_sql Append df_overlapping s)));
               fav_line
                 (value (snd (fav_to_sql Append
                                [ Fav.mk "2023-12-31-B" "2023-12-31" "B" 1;
                                  Fav.mk "2024-01-01-A" "2024-01-01" "A" 1 ]
                                (fst (tracks_to_sql Append df_overlapping s))))) ])
  /\ (value (snd (main (Ok df_overlapping) true store_after_dag_run)) = Ok tt
      /\ output (snd (main (Ok df_overlapping) true store_after_dag_run))
         = (STDOUT, Extracting) :: (STDOUT, CheckingQuality)
             :: output (Data_Quality df_overlapping)
             ++ [ (STDOUT, Transforming); (STDOUT, Connecting);
                  (STDOUT, TablesCreated); (STDOUT, Loading);
                  tracks_line
                    (value (snd (tracks_to_sql Append df_overlapping
                                   (fst (create_tables store_after_dag_run)))));
                  fav_line
                    (value (snd (fav_to_sql Append
                                   [ Fav.mk "2023-12-31-B" "2023-12-31" "B" 1;
                                     Fav.mk "2024-01-01-A" "2024-01-01" "A" 1 ]
                                   (fst (tracks_to_sql Append df_overlapping
                                           (fst (create_tables store_after_dag_run)))))));
                  (STDOUT, ProcessSucceeded) ]).
Proof.
  apply (load_failure_raised_by_dag_swallowed_by_script
           response_new_play store_down [ ev "s1" "A" "2024-01-01T10:00:00Z" ]
           (StoreError "could not connect to server")
           df_overlapping
           [ Fav.mk "2023-12-31-B" "2023-12-31" "B" 1;
             Fav.mk "2024-01-01-A" "2024-01-01" "A" 1 ]
           store_after_dag_run).
  - reflexivity.
  - discriminate.
  - reflexivity.
  - reflexivity.
  - reflexivity.
  - reflexivity.
Defined.

(** C7, as stated, fails: the store refuses the script's write to the
    aggregate table, yet the script returns normally and ends on its success
    line. *)
Lemma script_reports_success_after_a_refused_write :
  main (Ok df_overlapping) true store_after_dag_run
  = (mkstore true true no_lists
             (Some (mktable false (new_track :: map to_track df_overlapping)))
             (Some (mktable true [])),
     ([ (STDOUT, Extracting); (STDOUT, CheckingQuality);
        (STDOUT, Transforming); (STDOUT, Connecting);
        (STDOUT, TablesCreated); (STDOUT, Loading);
        (STDOUT, TracksLoaded);
        (STDOUT, FavLoadFailed
                   (StoreError "column ID of relation fav_artist does not exist"));
        (STDOUT, ProcessSucceeded) ],
      Ok tt)).
Proof. reflexivity. Qed.

End FailureClaims.

(* ===================================================================== *)
(** * Further properties *)
(* ===================================================================== *)

(** ** What the extractors return *)

Section Reading.

Lemma cols_of_app (df : DataFrame) (r : Events.row) :
  cols_of (df ++ [r])
  = mkcols (song_names (cols_of df) ++ [Events.song_name r])
           (artist_names (cols_of df) ++ [Events.artist_name r])
           (played_at_list (cols_of df) ++ [Events.played_at r])
           (timestamps (cols_of df) ++ [Events.timestamp r]).
Proof. unfold cols_of. simpl. now rewrite !map_app. Qed.

Lemma zip4_cols (df : DataFrame) :
  zip4 (map Events.song_name df) (map Events.artist_name df)
       (map Events.played_at df) (map Events.timestamp df) = df.
Proof.
  induction df as [|[s a p t] df IH]; simpl; [reflexivity|]. now rewrite IH.
Qed.

Lemma frame_of_cols_of (df : DataFrame) : frame_of (cols_of df) = Ok df.
Proof.
  unfold frame_of, of_columns, cols_of. simpl.
  rewrite !length_map, !Nat.eqb_refl. simpl. now rewrite zip4_cols.
Qed.

Lemma cols_of_not_ahead (df : DataFrame) : not_ahead (cols_of df).
Proof. unfold not_ahead, cols_of. simpl. rewrite !length_map. lia. Qed.

(** The loop body on an item that can be read in full. *)
Lemma item_body_complete (it : pyobj) (df : DataFrame) (r : Events.row) :
  read_item it = Ok r ->
  item_body it (cols_of df) = (cols_of (df ++ [r]), Ok tt).
Proof.
  unfold read_item, item_body.
  destruct (t <- getitem it "track" ;; getitem t "name")%res as [name|];
    cbn [Py.bind]; [|discriminate].
  destruct (t <- getitem it "track" ;; al <- getitem t "album" ;;
            ar <- getitem al "artists" ;; a0 <- getitem0 ar ;;
            getitem a0 "name")%res as [artist|]; cbn [Py.bind]; [|discriminate].
  destruct (getitem it "played_at") as [played|]; cbn [Py.bind]; [|discriminate].
  destruct (slice10 played) as [day|]; cbn [Py.bind]; [|discriminate].
  intros H. injection H as <-. now rewrite cols_of_app.
Qed.

(** What the loop body raises is what the reading raises. *)
Lemma item_body_raises (it : pyobj) (c : columns) (e : exn) :
  read_item it = Raise e -> snd (item_body it c) = Raise e.
Proof.
  unfold read_item, item_body.
  destruct (t <- getitem it "track" ;; getitem t "name")%res as [name|];
    cbn [Py.bind]; [|intros H; injection H as ->; reflexivity].
  destruct (t <- getitem it "track" ;; al <- getitem t "album" ;;
            ar <- getitem al "artists" ;; a0 <- getitem0 ar ;;
            getitem a0 "name")%res as [artist|]; cbn [Py.bind];
    [|intros H; injection H as ->; reflexivity].
  destruct (getitem it "played_at") as [played|]; cbn [Py.bind];
    [|intros H; injection H as ->; reflexivity].
  destruct (slice10 played) as [day|]; cbn [Py.bind];
    [intros H; discriminate H | intros H; injection H as ->; reflexivity].
Qed.

(** An item whose name cannot be read leaves the columns as they were. *)
Lemma item_body_untouched (it : pyobj) (c : columns) (e : exn) :
  (t <- getitem it "track" ;; getitem t "name")%res = Raise e ->
  fst (item_body it c) = c.
Proof. unfold item_body. now intros ->. Qed.

Lemma read_item_slice (it : pyobj) (r : Events.row) :
  read_item it = Ok r -> slice10 (Events.played_at r) = Ok (Events.timestamp r).
Proof.
  unfold read_item.
  destruct (t <- getitem it "track" ;; getitem t "name")%res as [name|];
    cbn [Py.bind]; [|discriminate].
  destruct (t <- getitem it "track" ;; al <- getitem t "album" ;;
            ar <- getitem al "artists" ;; a0 <- getitem0 ar ;;
            getitem a0 "name")%res as [artist|]; cbn [Py.bind]; [|discriminate].
  destruct (getitem it "played_at") as [played|]; cbn [Py.bind]; [|discriminate].
  destruct (slice10 played) as [day|] eqn:S; cbn [Py.bind]; [|discriminate].
  intros H. injection H as <-. exact S.
Qed.

(** The loop of [return_dataframe], when it ends: either an item was read
    in part, or the columns are those of the complete items and there is
    one warning per other item. *)
Lemma for_items_complete (items : list pyobj) (df0 : DataFrame)
      (o : list IO.line) (c' : columns) :
  SpotifyEtl.for_items items (cols_of df0) = (o, Ok c') ->
  skewed c'
  \/ (c' = cols_of (df0 ++ complete_rows items) /\ o = warnings_of items).
Proof.
  revert df0 o. induction items as [|it items IH]; intros df0 o V;
    cbn [SpotifyEtl.for_items] in V.
  - injection V as <- <-. right. simpl. now rewrite app_nil_r.
  - unfold complete_rows, warnings_of. cbn [flat_map].
    fold (complete_rows items). fold (warnings_of items).
    destruct (read_item it) as [r|e] eqn:R.
    + rewrite (item_body_complete it df0 r R) in V.
      destruct (IH _ _ V) as [S|[-> ->]]; [now left|].
      right. now rewrite <- app_assoc.
    + pose proof (item_body_raises it (cols_of df0) e R) as B.
      destruct (t <- getitem it "track" ;; getitem t "name")%res as [name|e0] eqn:N.
      * left.
        pose proof (item_body_partial it (cols_of df0) name e N B
                      (cols_of_not_ahead df0)) as S1.
        destruct (item_body it (cols_of df0)) as [c1 r1].
        cbn [fst snd] in B, S1. subst r1.
        destruct e; try discriminate.
        apply (for_items_skewed items c1 c' S1).
        unfold value.
        unfold IO.bind, log in V.
        destruct (SpotifyEtl.for_items items c1) as [o1 r1].
        now injection V as _ ->.
      * pose proof (item_body_untouched it (cols_of df0) e0 N) as U.
        destruct (item_body it (cols_of df0)) as [c1 r1].
        cbn [fst snd] in B, U. subst r1 c1.
        destruct e; try discriminate.
        unfold IO.bind, log in V.
        destruct (SpotifyEtl.for_items items (cols_of df0)) as [o1 r1] eqn:F.
        injection V as <- ->.
        destruct (IH _ _ F) as [S|[-> ->]]; [now left|].
        right. split; reflexivity.
Qed.

(** [return_dataframe] on a body with the items [items]. *)
Lemma return_dataframe_items (response : http) (items : list pyobj) :
  items_of response items ->
  return_dataframe response
  = match SpotifyEtl.for_items items no_columns with
    | (o, Ok c) =>
        match frame_of c with
        | Ok df => ((INFO, ExtractionStarted) :: o
                      ++ [ (INFO, Extracted (List.length df)) ], Ok df)
        | Raise e => ((INFO, ExtractionStarted) :: o, Raise e)
        end
    | (o, Raise e) => ((INFO, ExtractionStarted) :: o, Raise e)
    end.
Proof.
  intros [kvs [-> L]].
  unfold return_dataframe, IO.bind, IO.lift, IO.log, IO.ret, get_or_empty.
  cbn [fst snd app]. rewrite L. cbn [iter].
  destruct (SpotifyEtl.for_items items no_columns) as [o [c|e]];
    [|now rewrite ?app_nil_r].
  destruct (frame_of c); simpl; now rewrite ?app_nil_r.
Qed.

(** The loop of [get_recently_played_tracks], when it ends. *)
Lemma strict_for_items_complete (items : list pyobj) (df0 : DataFrame) (c' : columns) :
  Extractor.for_items items (cols_of df0) = Ok c' ->
  exists rows, map read_item items = map Ok rows /\ c' = cols_of (df0 ++ rows).
Proof.
  revert df0. induction items as [|it items IH]; intros df0 V;
    cbn [Extractor.for_items] in V.
  - injection V as <-. exists []. simpl. now rewrite app_nil_r.
  - destruct (read_item it) as [r|e] eqn:R.
    + rewrite (item_body_complete it df0 r R) in V.
      destruct (IH _ V) as [rows [M ->]].
      exists (r :: rows). simpl. rewrite R, M. split; [reflexivity|].
      now rewrite <- app_assoc.
    + pose proof (item_body_raises it (cols_of df0) e R) as B.
      destruct (item_body it (cols_of df0)) as [c1 r1]. cbn [snd] in B. subst r1.
      discriminate.
Qed.

Lemma strict_for_items_reads (rows : list Events.row) (items : list pyobj)
      (df0 : DataFrame) :
  map read_item items = map Ok rows ->
  Extractor.for_items items (cols_of df0) = Ok (cols_of (df0 ++ rows)).
Proof.
  revert items df0. induction rows as [|r rows IH]; intros [|it items] df0 M;
    try discriminate; cbn [Extractor.for_items].
  - now rewrite app_nil_r.
  - simpl in M. injection M as R M.
    rewrite (item_body_complete it df0 r R), (IH items _ M).
    now rewrite <- app_assoc.
Qed.

Lemma for_items_reads (rows : list Events.row) (items : list pyobj)
      (df0 : DataFrame) :
  map read_item items = map Ok rows ->
  SpotifyEtl.for_items items (cols_of df0) = ([], Ok (cols_of (df0 ++ rows))).
Proof.
  revert items df0. induction rows as [|r rows IH]; intros [|it items] df0 M;
    try discriminate; cbn [SpotifyEtl.for_items].
  - now rewrite app_nil_r.
  - simpl in M. injection M as R M.
    rewrite (item_body_complete it df0 r R), (IH items _ M).
    now rewrite <- app_assoc.
Qed.

Lemma get_recently_played_tracks_items (response : http) (items : list pyobj) :
  items_of response items ->
  get_recently_played_tracks response
  = handlers (c <- Extractor.for_items items no_columns ;; frame_of c)%res.
Proof.
  intros [kvs [-> L]].
  unfold get_recently_played_tracks, contains, getitem. simpl. rewrite L.
  reflexivity.
Qed.

Lemma handlers_Ok {A} (r : result A) (a : A) : handlers r = Ok a -> r = Ok a.
Proof. destruct r as [x|e]; simpl; [auto|]. destruct e; discriminate. Qed.

End Reading.

(** X1: when every item of the response can be read in full,
    [return_dataframe] returns the events of the items, one per item and in
    their order, and logs no warning. *)
Theorem return_dataframe_reads_every_complete_item
        (response : http) (items : list pyobj) (df : DataFrame) :
  items_of response items ->
  map read_item items = map Ok df ->
  return_dataframe response
  = ([ (INFO, ExtractionStarted); (INFO, Extracted (List.length df)) ], Ok df).
Proof.
  intros I R. rewrite (return_dataframe_items response items I).
  change no_columns with (cols_of []).
  rewrite (for_items_reads df items [] R). simpl.
  now rewrite frame_of_cols_of.
Qed.

(** The three plays of the worked example, as a response. *)
Lemma return_dataframe_reads_witness :
  return_dataframe response_three_plays
  = ([ (INFO, ExtractionStarted); (INFO, Extracted 3) ], Ok df_three_plays).
Proof.
  apply (return_dataframe_reads_every_complete_item
           response_three_plays items_three_plays df_three_plays).
  - exists [ ("items", PList items_three_plays) ]. split; reflexivity.
  - reflexivity.
Defined.

(** X2: whenever [return_dataframe] returns a frame, the frame holds
    exactly the events of the items that can be read in full, in their
    order, and one warning was logged for each other item. *)
Theorem return_dataframe_returns_complete_rows
        (response : http) (items : list pyobj) (df : DataFrame) :
  items_of response items ->
  value (return_dataframe response) = Ok df ->
  df = complete_rows items
  /\ output (return_dataframe response)
     = (INFO, ExtractionStarted) :: warnings_of items
         ++ [ (INFO, Extracted (List.length df)) ].
Proof.
  intros I. rewrite (return_dataframe_items response items I).
  change no_columns with (cols_of []).
  destruct (SpotifyEtl.for_items items (cols_of [])) as [o [c|e]] eqn:F;
    [|discriminate].
  destruct (for_items_complete items [] o c F) as [S|[-> ->]].
  - rewrite (frame_of_skewed c S). discriminate.
  - simpl app. rewrite frame_of_cols_of. unfold value, output. simpl.
    intros E. injection E as <-. auto.
Qed.

(** A response with extra fields and one item without [track]. *)
Lemma return_dataframe_complete_rows_witness :
  [ ev "s1" "A" "2024-01-01T10:00:00Z"; ev "s3" "B" "2024-01-01T12:00:00Z" ]
  = complete_rows items_with_extras
  /\ output (return_dataframe response_with_extras)
     = (INFO, ExtractionStarted) :: warnings_of items_with_extras
         ++ [ (INFO, Extracted 2) ].
Proof.
  apply (return_dataframe_returns_complete_rows
           response_with_extras items_with_extras
           [ ev "s1" "A" "2024-01-01T10:00:00Z"; ev "s3" "B" "2024-01-01T12:00:00Z" ]).
  - eexists. split; reflexivity.
  - reflexivity.
Defined.

(** X3: [get_recently_played_tracks] is all or nothing: it returns a frame
    exactly when every item can be read in full, and the frame then holds
    the event of every item, in their order. *)
Theorem get_recently_played_tracks_all_or_nothing
        (response : http) (items : list pyobj) (df : DataFrame) :
  items_of response items ->
  get_recently_played_tracks response = Ok df
  <-> map read_item items = map Ok df.
Proof.
  intros I. rewrite (get_recently_played_tracks_items response items I).
  change no_columns with (cols_of []). split.
  - intros H. apply handlers_Ok in H.
    destruct (Extractor.for_items items (cols_of [])) as [c|e] eqn:F;
      [|discriminate].
    destruct (strict_for_items_complete items [] c F) as [rows [M ->]].
    simpl in H. rewrite frame_of_cols_of in H. injection H as <-. exact M.
  - intros M. rewrite (strict_for_items_reads df items [] M). simpl.
    now rewrite frame_of_cols_of.
Qed.

(** The three plays of the worked example, as a response. *)
Lemma get_recently_played_tracks_witness :
  get_recently_played_tracks response_three_plays = Ok df_three_plays
  <-> map read_item items_three_plays = map Ok df_three_plays.
Proof.
  apply (get_recently_played_tracks_all_or_nothing
           response_three_plays items_three_plays df_three_plays).
  exists [ ("items", PList items_three_plays) ]. split; reflexivity.
Defined.

Lemma substring_length (n : nat) (s : string) :
  String.length (substring 0 n s) = Nat.min n (String.length s).
Proof.
  revert s. induction n as [|n IH]; intros [|c s]; simpl; auto.
Qed.

Lemma complete_rows_In (items : list pyobj) (r : Events.row) :
  In r (complete_rows items) -> exists it, In it items /\ read_item it = Ok r.
Proof.
  unfold complete_rows. rewrite in_flat_map. intros [it [Hit Hr]].
  exists it. split; [assumption|].
  destruct (read_item it) as [r'|]; simpl in Hr; [|contradiction].
  destruct Hr as [->|[]]. reflexivity.
Qed.

Lemma map_Ok_In (items : list pyobj) (df : DataFrame) (r : Events.row) :
  map read_item items = map Ok df -> In r df ->
  exists it, In it items /\ read_item it = Ok r.
Proof.
  revert items. induction df as [|r0 df IH]; intros [|it items] M Hr;
    try discriminate; simpl in *; [contradiction|].
  injection M as R M. destruct Hr as [->|Hr].
  - exists it. auto.
  - destruct (IH items M Hr) as [it' [H1 H2]]. exists it'. auto.
Qed.

(** X4: in every frame an extractor returns, the date of each event is
    the slice [played_at[:10]] of its [played_at]; so when every
    [played_at] is a string of at least ten characters, every date has
    exactly ten characters. *)
Theorem extracted_dates_are_prefixes
        (response : http) (items : list pyobj) (df : DataFrame) :
  items_of response items ->
  value (return_dataframe response) = Ok df
  \/ get_recently_played_tracks response = Ok df ->
  (forall r, In r df -> slice10 (Events.played_at r) = Ok (Events.timestamp r))
  /\ ((forall r, In r df ->
         exists p, Events.played_at r = PStr p /\ 10 <= String.length p) ->
      dates_of_length 10 df = true).
Proof.
  intros I H.
  assert (S : forall r, In r df ->
                slice10 (Events.played_at r) = Ok (Events.timestamp r)).
  { intros r Hr.
    assert (exists it, In it items /\ read_item it = Ok r) as [it [_ R]].
    { destruct H as [H|H].
      - rewrite (return_dataframe_items response items I) in H.
        change no_columns with (cols_of []) in H.
        destruct (SpotifyEtl.for_items items (cols_of [])) as [o [c|e]] eqn:F;
          [|discriminate].
        destruct (for_items_complete items [] o c F) as [K|[-> ->]].
        + rewrite (frame_of_skewed c K) in H. discriminate.
        + simpl app in H. rewrite frame_of_cols_of in H.
          unfold value in H. simpl in H. injection H as <-.
          now apply complete_rows_In.
      - rewrite (get_recently_played_tracks_items response items I) in H.
        apply handlers_Ok in H. change no_columns with (cols_of []) in H.
        destruct (Extractor.for_items items (cols_of [])) as [c|e] eqn:F;
          [|discriminate].
        destruct (strict_for_items_complete items [] c F) as [rows [M ->]].
        simpl in H. rewrite frame_of_cols_of in H. injection H as <-.
        now apply (map_Ok_In items rows). }
    now apply (read_item_slice it). }
  split; [exact S|].
  intros L. unfold dates_of_length. apply forallb_forall. intros r Hr.
  destruct (L r Hr) as [p [P Lp]]. specialize (S r Hr).
  rewrite P in S. simpl in S. injection S as <-.
  apply Nat.eqb_eq. rewrite substring_length. lia.
Qed.

(** The three plays of the worked example: their dates have ten
    characters. *)
Lemma extracted_dates_witness :
  (forall r, In r df_three_plays ->
     slice10 (Events.played_at r) = Ok (Events.timestamp r))
  /\ ((forall r, In r df_three_plays ->
         exists p, Events.played_at r = PStr p /\ 10 <= String.length p) ->
      dates_of_length 10 df_three_plays = true).
Proof.
  apply (extracted_dates_are_prefixes
           response_three_plays items_three_plays df_three_plays).
  - exists [ ("items", PList items_three_plays) ]. split; reflexivity.
  - left. reflexivity.
Defined.

(** ** More on the quality gates and the aggregators *)

(** X5: the two quality gates accept the same frames: they return the same
    boolean on the same frames, and one raises exactly when the other
    does (they differ in the class of the exception and in what they log). *)
Theorem quality_gates_accept_the_same_frames (df : DataFrame) :
  (forall b, value (Data_Quality df) = Ok b <-> value (data_quality df) = Ok b)
  /\ ((exists e, value (Data_Quality df) = Raise e)
      <-> (exists e, value (data_quality df) = Raise e)).
Proof.
  rewrite Data_Quality_value, data_quality_value.
  destruct (empty df).
  - split; [tauto|]. split; intros [e E]; discriminate.
  - destruct (is_unique (map Events.played_at df)) as [u|e].
    + destruct u; cbn [negb].
      * destruct (isnull_any df).
        -- split; [split; discriminate|]. split; eauto.
        -- split; [tauto|]. split; intros [e E]; discriminate.
      * split; [split; discriminate|]. split; eauto.
    + split; [tauto|]. tauto.
Qed.

Section Counts.

Lemma group_nonempty (df : DataFrame) (k : key) :
  In k (sorted_keys df) -> 1 <= size (group k df).
Proof.
  rewrite sorted_keys_In. intros [r [Hr K]].
  assert (In r (group k df)) as H.
  { unfold group. apply filter_In. split; [assumption|].
    unfold has_key. rewrite K. now apply key_eqb_eq. }
  unfold size. destruct (group k df); [contradiction | simpl; lia].
Qed.

Lemma list_sum_map_add {A} (f g : A -> nat) (l : list A) :
  list_sum (map (fun x => f x + g x) l)
  = list_sum (map f l) + list_sum (map g l).
Proof. induction l as [|x l IH]; simpl; [reflexivity | rewrite IH; lia]. Qed.

Lemma list_sum_zero {A} (f : A -> nat) (l : list A) :
  (forall x, In x l -> f x = 0) -> list_sum (map f l) = 0.
Proof.
  induction l as [|x l IH]; simpl; intros H; [reflexivity|].
  rewrite (H x), IH; auto.
Qed.

Lemma hits_one (r : Events.row) (k0 : key) (ks : list key) :
  row_key r = Some k0 -> NoDup ks -> In k0 ks ->
  list_sum (map (hits r) ks) = 1.
Proof.
  intros K N. induction N as [|k ks Hk N IH]; simpl; intros I; [contradiction|].
  unfold hits at 1. unfold has_key. rewrite K.
  destruct I as [->|I].
  - rewrite (proj2 (key_eqb_eq k0 k0) eq_refl).
    rewrite list_sum_zero; [reflexivity|].
    intros k Hk'. unfold hits, has_key. rewrite K.
    destruct (key_eqb k k0) eqn:E; [|reflexivity].
    apply key_eqb_eq in E. subst. contradiction.
  - destruct (key_eqb k k0) eqn:E.
    + apply key_eqb_eq in E. subst. contradiction.
    + now rewrite IH.
Qed.

Lemma hits_none (r : Events.row) (ks : list key) :
  row_key r = None -> list_sum (map (hits r) ks) = 0.
Proof.
  intros K. apply list_sum_zero. intros k _. unfold hits, has_key. now rewrite K.
Qed.

(** The sizes of the groups of distinct keys that cover the frame add up
    to the number of its keyed rows. *)
Lemma group_sizes_add_up (ks : list key) (df : DataFrame) :
  NoDup ks ->
  (forall r k, In r df -> row_key r = Some k -> In k ks) ->
  list_sum (map (fun k => size (group k df)) ks) = List.length (keyed_rows df).
Proof.
  intros N. induction df as [|r df IH]; intros C.
  - simpl. apply list_sum_zero. reflexivity.
  - assert (E : forall k, size (group k (r :: df)) = hits r k + size (group k df)).
    { intros k. unfold size, group, hits. simpl.
      destruct (has_key k r); reflexivity. }
    rewrite (map_ext _ _ E), list_sum_map_add.
    rewrite IH by (intros r' k Hr'; apply C; now right).
    unfold keyed_rows. simpl.
    destruct (row_key r) as [k0|] eqn:K.
    + rewrite (hits_one r k0 ks K N); [reflexivity|].
      apply (C r k0); [now left | assumption].
    + now rewrite (hits_none r ks K).
Qed.

Lemma keyed_rows_all (df : DataFrame) :
  events_frame df = true -> isnull_any df = false -> keyed_rows df = df.
Proof.
  unfold events_frame, keyed_rows. intros T Z.
  induction df as [|r df IH]; simpl; [reflexivity|].
  simpl in T. apply andb_true_iff in T. destruct T as [Tr T].
  unfold isnull_any in Z. simpl in Z. apply orb_false_iff in Z.
  destruct Z as [Zr Z].
  assert (exists k, row_key r = Some k) as [k ->].
  { unfold events_row in Tr. unfold row_isnull in Zr. unfold row_key.
    destruct (Events.timestamp r), (Events.artist_name r); simpl in *;
      rewrite ?andb_false_r, ?orb_true_r in *; try discriminate; eauto. }
  f_equal. now apply IH.
Qed.

End Counts.

(** X6: every record that [transform_df] returns counts at least one
    event; so does every record of [Transform_df] on a frame without
    nulls. *)
Theorem aggregate_counts_are_positive
        (df : DataFrame) (out : list Fav.row) (x : Fav.row) :
  value (transform_df df) = Ok out \/ (Transform_df df = Ok out /\ ~ has_null df) ->
  In x out -> 1 <= Fav.count x.
Proof.
  intros H Hx.
  assert (S : out = map (Fav_of_count size df) (sorted_keys df)).
  { destruct H as [H|[H N]].
    - rewrite transform_df_eq in H.
      destruct (keys_hashable df && negb (empty df)); [|discriminate].
      now injection H as <-.
    - rewrite Transform_df_eq in H.
      destruct (keys_hashable df); [|discriminate]. injection H as <-.
      apply map_ext. intros k. unfold Fav_of_count. rewrite count_group; [reflexivity|].
      destruct (isnull_any df) eqn:E; [|reflexivity].
      exfalso. apply N. now apply isnull_any_has_null. }
  subst out. apply in_map_iff in Hx. destruct Hx as [k [<- Hk]].
  simpl. now apply group_nonempty.
Qed.

(** The aggregate of the three plays of the worked example. *)
Lemma aggregate_counts_witness :
  1 <= Fav.count (Fav.mk "2024-01-01-B" "2024-01-01" "B" 1).
Proof.
  apply (aggregate_counts_are_positive
           df_three_plays
           [ Fav.mk "2024-01-01-A" "2024-01-01" "A" 2;
             Fav.mk "2024-01-01-B" "2024-01-01" "B" 1 ]).
  - left. reflexivity.
  - right. left. reflexivity.
Defined.

(** X7: the counts that [transform_df] returns add up to the number of
    rows whose date and artist are both strings (the other rows are left
    out of every group); on a batch of events without nulls they add up to
    the size of the batch. *)
Theorem transform_df_counts_add_up (df : DataFrame) (out : list Fav.row) :
  value (transform_df df) = Ok out ->
  list_sum (map Fav.count out) = List.length (keyed_rows df)
  /\ (events_frame df = true -> ~ has_null df ->
      list_sum (map Fav.count out) = List.length df).
Proof.
  intros H. rewrite transform_df_eq in H.
  destruct (keys_hashable df && negb (empty df)); [|discriminate].
  injection H as <-.
  assert (E : list_sum (map Fav.count (map (Fav_of_count size df) (sorted_keys df)))
              = List.length (keyed_rows df)).
  { rewrite map_map. simpl.
    apply group_sizes_add_up.
    - apply strictly_sorted_NoDup, sorted_keys_sorted.
    - intros r k Hr K. apply sorted_keys_In. eauto. }
  split; [exact E|].
  intros T N. rewrite E. f_equal. apply keyed_rows_all; [assumption|].
  destruct (isnull_any df) eqn:Z; [|reflexivity].
  exfalso. apply N. now apply isnull_any_has_null.
Qed.

(** The three plays of the worked example: the counts 2 and 1. *)
Lemma transform_df_counts_witness :
  list_sum (map Fav.count [ Fav.mk "2024-01-01-A" "2024-01-01" "A" 2;
                            Fav.mk "2024-01-01-B" "2024-01-01" "B" 1 ])
  = List.length (keyed_rows df_three_plays)
  /\ (events_frame df_three_plays = true -> ~ has_null df_three_plays ->
      list_sum (map Fav.count [ Fav.mk "2024-01-01-A" "2024-01-01" "A" 2;
                                Fav.mk "2024-01-01-B" "2024-01-01" "B" 1 ])
      = List.length df_three_plays).
Proof.
  apply (transform_df_counts_add_up df_three_plays). reflexivity.
Defined.

(** ** Identifiers of an aggregate *)

Section Loading.

Lemma id_lt_irrefl (a : string) : ~ id_lt a a.
Proof. unfold id_lt. rewrite string_compare_refl. discriminate. Qed.

Lemma id_sorted_NoDup (l : list string) : StronglySorted id_lt l -> NoDup l.
Proof.
  induction 1 as [|a l S IH F]; constructor; auto.
  intros Hin. rewrite Forall_forall in F. exact (id_lt_irrefl a (F a Hin)).
Qed.

(** The ids of an aggregate of a batch whose dates have one length are
    pairwise different. *)
Lemma aggregate_ids_NoDup (n : nat) (df : DataFrame) (out : list Fav.row) :
  dates_of_length n df = true -> aggregate_of df out -> NoDup (map Fav.ID out).
Proof.
  intros D A. apply id_sorted_NoDup.
  destruct (aggregate_of_shape df out A) as [f ->].
  rewrite map_map. simpl.
  apply (StronglySorted_map_in key_lt id_lt); [|apply sorted_keys_sorted].
  intros k1 k2 H1 H2. apply id_lt_of_key_lt.
  now rewrite (dates_of_length_keys n df k1 D H1), (dates_of_length_keys n df k2 D H2).
Qed.

Lemma NoDup_map_injective {A B : Type} (f : A -> B) (l : list A) (x y : A) :
  NoDup (map f l) -> In x l -> In y l -> f x = f y -> x = y.
Proof.
  induction l as [|a l IH]; simpl; intros N Hx Hy E; [contradiction|].
  inversion N as [|? ? Ha N']; subst.
  destruct Hx as [->|Hx], Hy as [->|Hy]; auto.
  - exfalso. apply Ha. rewrite E. now apply in_map.
  - exfalso. apply Ha. rewrite <- E. now apply in_map.
Qed.

End Loading.

(** X8: in the aggregate of a batch whose dates all have the same length
    the ID is a key: no two records have the same ID. *)
Theorem aggregate_ids_are_pairwise_different
        (n : nat) (df : DataFrame) (out : list Fav.row) :
  dates_of_length n df = true ->
  aggregate_of df out ->
  NoDup (map Fav.ID out)
  /\ forall x y, In x out -> In y out -> Fav.ID x = Fav.ID y -> x = y.
Proof.
  intros D A. pose proof (aggregate_ids_NoDup n df out D A) as N.
  split; [exact N|].
  intros x y Hx Hy E. exact (NoDup_map_injective Fav.ID out x y N Hx Hy E).
Qed.

(** The aggregate of the three plays of the worked example. *)
Lemma aggregate_ids_witness :
  NoDup (map Fav.ID [ Fav.mk "2024-01-01-A" "2024-01-01" "A" 2;
                      Fav.mk "2024-01-01-B" "2024-01-01" "B" 1 ])
  /\ forall x y,
       In x [ Fav.mk "2024-01-01-A" "2024-01-01" "A" 2;
              Fav.mk "2024-01-01-B" "2024-01-01" "B" 1 ] ->
       In y [ Fav.mk "2024-01-01-A" "2024-01-01" "A" 2;
              Fav.mk "2024-01-01-B" "2024-01-01" "B" 1 ] ->
       Fav.ID x = Fav.ID y -> x = y.
Proof.
  apply (aggregate_ids_are_pairwise_different 10 df_three_plays).
  - reflexivity.
  - left. reflexivity.
Defined.

(** ** Writes that the constraint lets through *)

(** X9: a batch of events that passed the quality gate, whose strings hold
    no character NUL and at most 200 characters, is accepted by the events
    table of the [CREATE TABLE] statement whenever none of its [played_at]
    is stored yet: the append adds every event after the stored rows and
    raises nothing. *)
Theorem validated_batch_is_accepted_by_my_played_tracks
        (df : DataFrame) (st : store) (t : table Tracks.row) :
  plain_frame df = true ->
  short_frame df = true ->
  value (Data_Quality df) = Ok true ->
  available st = true ->
  my_played_tracks st = Some t -> has_pk t = true ->
  (forall r k, In r df -> Events.played_at r = PStr k ->
               ~ In (Some k) (track_keys t)) ->
  tracks_to_sql Append df st
  = (with_tracks st (Some (mktable true (rows t ++ map to_track df))),
     ([], Ok tt)).
Proof.
  intros E Sh V Av T P F.
  apply Data_Quality_passed in V. destruct V as (_ & U & Z).
  pose proof (plain_frame_played_at df E) as Tp.
  unfold tracks_to_sql. rewrite Av, (plain_frame_adapt _ df E), T.
  cbn [negb prepare Py.bind]. cbv zeta. rewrite P.
  rewrite (insert_rows_fresh Tracks.played_at fit_track (rows t) (map to_track df)).
  - reflexivity.
  - exact (short_frame_fits df Sh).
  - rewrite map_map. simpl. rewrite <- (map_map Events.played_at sql_of).
    apply NoDup_sql_of; [assumption|]. now apply nodupb_NoDup.
  - intros x Hx. apply in_map_iff in Hx. destruct Hx as [r [<- Hr]]. simpl.
    pose proof (isnull_any_false df r Z Hr) as Nr.
    unfold row_isnull in Nr. rewrite !orb_false_iff in Nr.
    destruct Nr as [[[_ _] Np] _].
    rewrite forallb_forall in Tp.
    specialize (Tp (Events.played_at r) (in_map _ _ _ Hr)).
    destruct (Events.played_at r) as [|k| |] eqn:K; simpl in *; try discriminate.
    exists k. split; [reflexivity|]. exact (F r k Hr K).
Qed.

(** The three plays, appended to the table that holds an earlier play. *)
Lemma validated_batch_is_accepted_witness :
  tracks_to_sql Append df_three_plays store_with_history
  = (with_tracks store_with_history
       (Some (mktable true ([ old_track ] ++ map to_track df_three_plays))),
     ([], Ok tt)).
Proof.
  apply (validated_batch_is_accepted_by_my_played_tracks
           df_three_plays store_with_history (mktable true [ old_track ])).
  - reflexivity.
  - reflexivity.
  - reflexivity.
  - reflexivity.
  - reflexivity.
  - reflexivity.
  - intros r k [<-|[<-|[<-|[]]]] K [H|[]]; injection K as <-; discriminate H.
Defined.

(** ** The DAG task as a whole *)

Section DagClaims.

Import Dag.

(** X10: when the request or the reading of the response raises, or the
    quality gate raises, the DAG task writes nothing: it leaves the store as
    it was and fails with that same exception, after [spotify_etl] has
    logged it and [etl_process] has printed it. *)
Theorem failed_extraction_or_gate_aborts_the_run
        (response : http) (st : store) (e : exn) :
  value (return_dataframe response) = Raise e
  \/ (exists df, value (return_dataframe response) = Ok df
                 /\ value (data_quality df) = Raise e) ->
  fst (etl_process response st) = st
  /\ value (snd (etl_process response st)) = Raise e
  /\ exists before,
       output (snd (etl_process response st))
       = before ++ [ (ERROR, EtlFailed e); (STDOUT, DagExtractionFailed e) ].
Proof.
  intros H.
  assert (V : value (spotify_etl response) = Raise e).
  { rewrite spotify_etl_value. destruct H as [->|[df [-> ->]]]; reflexivity. }
  rewrite (etl_process_fails response st e V).
  destruct (spotify_etl_raises response e V) as [before B].
  repeat split. exists ((STDOUT, DagStarted) :: before).
  unfold output at 1. simpl. rewrite B. now rewrite <- app_assoc.
Qed.

(** A response that reports one play twice fails the gate. *)
Lemma failed_gate_witness :
  fst (etl_process response_repeated_play store_after_one_run) = store_after_one_run
  /\ value (snd (etl_process response_repeated_play store_after_one_run))
     = Raise (ValueError "duplicates found in column 'played_at'")
  /\ exists before,
       output (snd (etl_process response_repeated_play store_after_one_run))
       = before
           ++ [ (ERROR, EtlFailed (ValueError "duplicates found in column 'played_at'"));
                (STDOUT, DagExtractionFailed
                           (ValueError "duplicates found in column 'played_at'")) ].
Proof.
  apply (failed_extraction_or_gate_aborts_the_run
           response_repeated_play store_after_one_run).
  right. eexists. split; reflexivity.
Defined.

(** X11: a run of the DAG task that returns normally either extracted no
    event and left the store as it was, or replaced the events table by the
    rows of the extracted frame, which passed the quality gate, as the
    driver adapts them (a frame of plain cells: as they are): one row per
    event, in a table without constraint in which nevertheless no two rows
    share a [played_at] and no [played_at] is null.  The aggregate table is
    not touched. *)
Theorem dag_run_stores_only_validated_batches (response : http) (st : store) :
  value (snd (etl_process response st)) = Ok tt ->
  (value (spotify_etl response) = Ok [] /\ fst (etl_process response st) = st)
  \/ exists df new,
       value (return_dataframe response) = Ok df
       /\ value (data_quality df) = Ok true
       /\ adapt_frame (render_list st) df = Ok new
       /\ (plain_frame df = true -> new = map to_track df)
       /\ fst (etl_process response st) = with_tracks st (Some (mktable false new))
       /\ List.length new = List.length df
       /\ NoDup (map Tracks.played_at new)
       /\ ~ In None (map Tracks.played_at new).
Proof.
  destruct (value (spotify_etl response)) as [df|e] eqn:V.
  - destruct df as [|r df].
    + intros _. left. split; [reflexivity|].
      now rewrite (etl_process_empty response st V).
    + assert (NE : r :: df <> []) by discriminate.
      rewrite (etl_process_loads response st (r :: df) V NE). cbn [fst snd value].
      destruct (spotify_etl_validated response (r :: df) V NE) as [R Q].
      destruct (data_quality_passed _ Q) as (_ & Hh & U & Z).
      destruct (available st) eqn:A.
      * destruct (adapt_frame (render_list st) (r :: df)) as [new|e] eqn:F.
        -- intros _. right. exists (r :: df), new.
           rewrite (tracks_replace (r :: df) st new A F). cbn [fst].
           destruct (stored_keys _ (r :: df) new F Hh U Z) as [N1 N2].
           repeat split; try assumption.
           ++ intros Pl. rewrite (plain_frame_adapt _ _ Pl) in F. now injection F.
           ++ exact (adapt_frame_length _ _ _ F).
        -- unfold tracks_to_sql. rewrite A, F. cbn [negb Py.bind]. cbv zeta.
           cbn [snd value]. discriminate.
      * unfold tracks_to_sql. rewrite A. cbn [negb snd value]. discriminate.
  - rewrite (etl_process_fails response st e V). cbn [snd value]. discriminate.
Qed.

(** A run on a response with one play, on a store that holds two. *)
Lemma dag_run_witness :
  (value (spotify_etl response_new_play) = Ok []
   /\ fst (etl_process response_new_play store_after_two_plays)
      = store_after_two_plays)
  \/ exists df new,
       value (return_dataframe response_new_play) = Ok df
       /\ value (data_quality df) = Ok true
       /\ adapt_frame (render_list store_after_two_plays) df = Ok new
       /\ (plain_frame df = true -> new = map to_track df)
       /\ fst (etl_process response_new_play store_after_two_plays)
          = with_tracks store_after_two_plays (Some (mktable false new))
       /\ List.length new = List.length df
       /\ NoDup (map Tracks.played_at new)
       /\ ~ In None (map Tracks.played_at new).
Proof.
  apply (dag_run_stores_only_validated_batches response_new_play store_after_two_plays).
  reflexivity.
Defined.

End DagClaims.

(** ** The script's loader as a whole *)

Section LoaderAsAWhole.

Import Loader.



End LoaderAsAWhole.

Section LoaderClaims.

Import Loader.



(** X13: the two writes of [load_data_to_db] are independent: whatever
    the other write does, each table ends as the write to it alone would
    leave it, and the call returns normally. *)
Theorem load_data_to_db_writes_are_independent
        (load_df : DataFrame) (tdf : list Fav.row) (st : store) :
  my_played_tracks (fst (load_data_to_db load_df tdf st))
  = my_played_tracks (fst (tracks_to_sql Append load_df st))
  /\ fav_artist (fst (load_data_to_db load_df tdf st))
     = fav_artist (fst (fav_to_sql Append tdf st))
  /\ available (fst (load_data_to_db load_df tdf st)) = available st
  /\ value (snd (load_data_to_db load_df tdf st)) = Ok tt.
Proof.
  rewrite load_data_to_db_store, tracks_to_sql_store, fav_to_sql_store.
  repeat split. apply load_data_to_db_returns.
Qed.

End LoaderClaims.

(** ** The script as a whole *)

Section ScriptClaims.

Import Loader.

Lemma ends_on_one (l l' : IO.line) (before : list IO.line) :
  ends_on l (before ++ [l']) -> l = l'.
Proof.
  intros [b E]. apply app_inj_tail in E. now destruct E.
Qed.

(** The script, stage by stage. *)
Lemma main_outcome (extracted : result DataFrame) (db_env_set : bool) (st : store) :
  (exists df tdf before,
      reaches_loader extracted db_env_set st df tdf
      /\ main extracted db_env_set st
         = (fst (load_data_to_db df tdf (fst (create_tables st))),
            (before ++ [ (STDOUT, ProcessSucceeded) ], Ok tt)))
  \/ ((~ exists df tdf, reaches_loader extracted db_env_set st df tdf)
      /\ exists before e,
           snd (main extracted db_env_set st)
           = (before ++ [ (STDOUT, ProcessFailed e) ], Ok tt)
           /\ (fst (main extracted db_env_set st) = st
               \/ (value (snd (create_tables st)) = Raise e
                   /\ fst (main extracted db_env_set st) = fst (create_tables st)))).
Proof.
  unfold reaches_loader.
  destruct extracted as [df|e0].
  - destruct (value (Data_Quality df)) as [[|]|e1] eqn:Q.
    + destruct (Transform_df df) as [tdf|e2] eqn:T.
      * destruct db_env_set.
        -- destruct (value (snd (create_tables st))) as [[]|e3] eqn:C.
           ++ left. exists df, tdf. eexists. split; [now repeat split|].
              rewrite (main_after_create_tables df tdf st Q T C).
              f_equal. f_equal.
              rewrite !app_comm_cons, !app_assoc. reflexivity.
           ++ right. split.
              { intros (df' & tdf' & _ & _ & _ & _ & C'). congruence. }
              unfold value, output in *.
              cbv beta iota delta [main Sql.bind Sql.try_except Sql.lift print
                                   IO.log IO.lift get_db_engine Sql.ret Sql.raise
                                   IO.ret IO.raise].
              destruct (Data_Quality df) as [o r]. cbn [snd] in Q. subst r.
              cbv beta iota delta [negb]. rewrite T. cbv beta iota.
              destruct (create_tables st) as [st1 [oc rc]]. cbn [fst snd] in *.
              subst rc. cbv beta iota. cbn [fst snd].
              exists ((STDOUT, Extracting) :: (STDOUT, CheckingQuality)
                        :: o ++ [ (STDOUT, Transforming); (STDOUT, Connecting) ] ++ oc),
                e3.
              split; [|right; split; reflexivity].
              cbn [app]. rewrite ?app_nil_r, <- ?app_assoc. reflexivity.
        -- right. split.
           { intros (df' & tdf' & _ & _ & _ & D & _). discriminate. }
           unfold value, output in *.
           cbv beta iota delta [main Sql.bind Sql.try_except Sql.lift print
                                IO.log IO.lift get_db_engine Sql.ret Sql.raise
                                IO.ret IO.raise].
           destruct (Data_Quality df) as [o r]. cbn [snd] in Q. subst r.
           cbv beta iota delta [negb]. rewrite T. cbv beta iota. cbn [fst snd].
           exists ((STDOUT, Extracting) :: (STDOUT, CheckingQuality)
                     :: o ++ [ (STDOUT, Transforming); (STDOUT, Connecting) ]),
             (ValueError "not all database variables are set in .env").
           split; [|now left].
           cbn [app]. rewrite ?app_nil_r, <- ?app_assoc. reflexivity.
      * right. split.
        { intros (df' & tdf' & E & _ & T' & _). injection E as <-. congruence. }
        unfold value, output in *.
        cbv beta iota delta [main Sql.bind Sql.try_except Sql.lift print
                             IO.log IO.lift get_db_engine Sql.ret Sql.raise
                             IO.ret IO.raise].
        destruct (Data_Quality df) as [o r]. cbn [snd] in Q. subst r.
        cbv beta iota delta [negb]. rewrite T. cbv beta iota. cbn [fst snd].
        exists ((STDOUT, Extracting) :: (STDOUT, CheckingQuality)
                  :: o ++ [ (STDOUT, Transforming) ]), e2.
        split; [|now left].
        cbn [app]. rewrite ?app_nil_r, <- ?app_assoc. reflexivity.
    + right. split.
      { intros (df' & tdf' & E & Q' & _). injection E as <-. congruence. }
      unfold value, output in *.
      cbv beta iota delta [main Sql.bind Sql.try_except Sql.lift print
                           IO.log IO.lift get_db_engine Sql.ret Sql.raise
                           IO.ret IO.raise].
      destruct (Data_Quality df) as [o r]. cbn [snd] in Q. subst r.
      cbv beta iota delta [negb]. cbn [fst snd].
      exists ((STDOUT, Extracting) :: (STDOUT, CheckingQuality) :: o),
        (ValueError "data quality check failed").
      split; [|now left].
      cbn [app]. rewrite ?app_nil_r, <- ?app_assoc. reflexivity.
    + right. split.
      { intros (df' & tdf' & E & Q' & _). injection E as <-. congruence. }
      unfold value, output in *.
      cbv beta iota delta [main Sql.bind Sql.try_except Sql.lift print
                           IO.log IO.lift get_db_engine Sql.ret Sql.raise
                           IO.ret IO.raise].
      destruct (Data_Quality df) as [o r]. cbn [snd] in Q. subst r.
      cbv beta iota. cbn [fst snd].
      exists ((STDOUT, Extracting) :: (STDOUT, CheckingQuality) :: o), e1.
      split; [|now left].
      cbn [app]. rewrite ?app_nil_r, <- ?app_assoc. reflexivity.
  - right. split.
    { intros (df' & tdf' & E & _). discriminate. }
    exists [ (STDOUT, Extracting) ], e0. split; [reflexivity | now left].
Qed.

(** X14: the script never ends with an exception.  It ends on its success
    line exactly when it reaches its loader, that is when the extraction
    returned, the quality gate returned [True], the aggregation returned,
    the connection variables are set and [create_tables] returned; the store
    is then what [load_data_to_db] leaves after [create_tables].  In every
    other case it ends on its error line with the exception that stopped it,
    and the store is as it was, unless the exception is the one of
    [create_tables]: then it is what [create_tables] left. *)
Theorem script_ends_on_success_exactly_when_it_reaches_the_loader
        (extracted : result DataFrame) (db_env_set : bool) (st : store) :
  value (snd (main extracted db_env_set st)) = Ok tt
  /\ (ends_on (STDOUT, ProcessSucceeded) (output (snd (main extracted db_env_set st)))
      <-> exists df tdf, reaches_loader extracted db_env_set st df tdf)
  /\ (forall df tdf,
        reaches_loader extracted db_env_set st df tdf ->
        fst (main extracted db_env_set st)
        = fst (load_data_to_db df tdf (fst (create_tables st))))
  /\ ((~ exists df tdf, reaches_loader extracted db_env_set st df tdf) ->
      exists e,
        ends_on (STDOUT, ProcessFailed e) (output (snd (main extracted db_env_set st)))
        /\ (fst (main extracted db_env_set st) = st
            \/ (value (snd (create_tables st)) = Raise e
                /\ fst (main extracted db_env_set st) = fst (create_tables st)))).
Proof.
  destruct (main_outcome extracted db_env_set st)
    as [(df & tdf & before & R & M) | (NR & before & e & M & S)].
  - rewrite M. unfold value, output. cbn [fst snd].
    split; [reflexivity|]. split; [|split].
    + split; [intros _; eauto | intros _; now exists before].
    + intros df' tdf' (E' & _ & T' & _). destruct R as (E & _ & T & _).
      rewrite E in E'. injection E' as <-. rewrite T in T'. now injection T' as <-.
    + intros NR. exfalso. apply NR. eauto.
  - unfold value, output. rewrite M. cbn [fst snd].
    split; [reflexivity|]. split; [|split].
    + split; [|intros R; contradiction].
      intros H. apply ends_on_one in H. discriminate.
    + intros df tdf R. exfalso. apply NR. eauto.
    + intros _. exists e. split; [now exists before | exact S].
Qed.

End ScriptClaims.

(** ** data_processing.py as a script *)

(** X15: the script [data_processing.py] does not look at what
    [Data_Quality] returns.  On a frame of events (cells that are strings
    or [None]) it stops exactly when the gate raises, with the exception of
    the gate; whenever the gate returns, be it [True] or [False], the frame
    is aggregated, the aggregation returns, and the aggregate is printed
    after the output of the gate.  So a response without items, for which
    the gate returns [False], still has its empty aggregate printed. *)
Theorem data_processing_script_ignores_the_gate_result
        (response : http) (df : DataFrame) :
  get_recently_played_tracks response = Ok df ->
  events_frame df = true ->
  (forall e,
      value (Data_Quality df) = Raise e ->
      DataProcessingScript.main response = (output (Data_Quality df), Raise e))
  /\ (forall b,
        value (Data_Quality df) = Ok b ->
        exists tdf,
          Transform_df df = Ok tdf
          /\ DataProcessingScript.main response
             = (output (Data_Quality df) ++ [ (STDOUT, PrintedFrame tdf) ], Ok tt))
  /\ (df = [] ->
      DataProcessingScript.main response
      = ([ (STDOUT, NoSongsExtracted); (STDOUT, PrintedFrame []) ], Ok tt)).
Proof.
  intros G E.
  assert (T : exists tdf, Transform_df df = Ok tdf).
  { rewrite Transform_df_eq, (events_frame_keys_hashable df E). eauto. }
  destruct T as [tdf T].
  unfold DataProcessingScript.main, value, output, IO.bind, IO.lift, IO.log.
  rewrite G. cbv beta iota zeta.
  split; [|split].
  - intros e Q. destruct (Data_Quality df) as [o r]. cbn [fst snd] in *.
    subst r. reflexivity.
  - intros b Q. exists tdf. split; [assumption|].
    destruct (Data_Quality df) as [o r]. cbn [fst snd] in *. subst r.
    rewrite T. reflexivity.
  - intros ->. reflexivity.
Qed.

(** A response without any item. *)
Lemma data_processing_script_witness :
  DataProcessingScript.main (body_of [])
  = ([ (STDOUT, NoSongsExtracted); (STDOUT, PrintedFrame []) ], Ok tt).
Proof.
  exact (proj2 (proj2 (data_processing_script_ignores_the_gate_result
                         (body_of []) [] eq_refl eq_refl))
               eq_refl).
Defined.

(** ** drop_tables.py *)

Section Dropping.

Import DropTables.





End Dropping.

Section DropClaims.

Import DropTables.

(** X16: the script [drop_tables.py], which drops the two tables of the
    pipeline, under an engine of SQLAlchemy 2.0.  On a store it can reach it leaves neither table and nothing
    else changed, logs for each of the two names that it drops the table,
    or the warning that there is no such table, and returns normally; on a
    store it cannot reach it changes nothing, logs the connection error and
    raises it again. *)
Theorem drop_tables_script_removes_both_tables (st : store) :
  plain_sql st = false ->
  (available st = true ->
   main st
   = (with_fav (with_tracks st None) None,
      ([ (INFO, ScriptStarted); (INFO, EngineCreated);
         drop_line (is_some (my_played_tracks st)) "my_played_tracks";
         drop_line (is_some (fav_artist st)) "fav_artist";
         (INFO, AllDropped); (INFO, ScriptDone) ],
       Ok tt)))
  /\ (available st = false ->
      main st
      = (st,
         ([ (INFO, ScriptStarted); (INFO, EngineCreated);
            (ERROR, DropFailed (StoreError "could not connect to server")) ],
          Raise (StoreError "could not connect to server")))).
Proof.
  intros _.
  split; intros A; unfold main, drop_tables; rewrite A; cbn [negb]; [|reflexivity].
  destruct st as [a p d [t|] [f|]]; reflexivity.
Qed.

(** The script on a store whose engine is SQLAlchemy 2.0 and that holds the
    events table only. *)
Lemma drop_tables_script_witness :
  (available store_sqlalchemy2 = true ->
   main store_sqlalchemy2
   = (with_fav (with_tracks store_sqlalchemy2 None) None,
      ([ (INFO, ScriptStarted); (INFO, EngineCreated);
         drop_line (is_some (my_played_tracks store_sqlalchemy2)) "my_played_tracks";
         drop_line (is_some (fav_artist store_sqlalchemy2)) "fav_artist";
         (INFO, AllDropped); (INFO, ScriptDone) ],
       Ok tt)))
  /\ (available store_sqlalchemy2 = false ->
      main store_sqlalchemy2
      = (store_sqlalchemy2,
         ([ (INFO, ScriptStarted); (INFO, EngineCreated);
            (ERROR, DropFailed (StoreError "could not connect to server")) ],
          Raise (StoreError "could not connect to server")))).
Proof.
  apply (drop_tables_script_removes_both_tables store_sqlalchemy2). reflexivity.
Defined.



End DropClaims.

(** ** create_tables *)

Section CreateClaims.

Import Loader.

(** X18: [create_tables] cannot initialise a database.  On a store that it
    can reach, that takes its statements and that holds neither table, it
    creates the events table with its constraint and then raises on the
    aggregate table, whose constraint bears the same name; called again it
    raises again and changes nothing.  So the aggregate table is never
    created, and the script never gets as far as its loader. *)
Theorem create_tables_cannot_initialise_a_database
        (st : store) (extracted : result DataFrame) (db_env_set : bool) :
  available st = true -> plain_sql st = true ->
  my_played_tracks st = None -> fav_artist st = None ->
  create_tables st
  = (with_tracks st (Some (mktable true [])),
     ([], Raise (StoreError "relation primary_key_constraint already exists")))
  /\ create_tables (with_tracks st (Some (mktable true [])))
     = (with_tracks st (Some (mktable true [])),
        ([], Raise (StoreError "relation primary_key_constraint already exists")))
  /\ (~ exists df tdf, reaches_loader extracted db_env_set st df tdf)
  /\ (~ exists df tdf,
        reaches_loader extracted db_env_set
                       (with_tracks st (Some (mktable true []))) df tdf).
Proof.
  intros A P T F.
  assert (C1 : create_tables st
               = (with_tracks st (Some (mktable true [])),
                  ([], Raise (StoreError "relation primary_key_constraint already exists")))).
  { destruct st as [a p d T0 F0]. cbn in A, P, T, F. subst. reflexivity. }
  assert (C2 : create_tables (with_tracks st (Some (mktable true [])))
               = (with_tracks st (Some (mktable true [])),
                  ([], Raise (StoreError "relation primary_key_constraint already exists")))).
  { destruct st as [a p d T0 F0]. cbn in A, P, T, F. subst. reflexivity. }
  split; [exact C1|]. split; [exact C2|].
  split; intros (df & tdf & _ & _ & _ & _ & C).
  - rewrite C1 in C. discriminate.
  - rewrite C2 in C. discriminate.
Qed.

(** A database without tables, and the script on the three plays. *)
Lemma create_tables_witness :
  create_tables store_fresh
  = (with_tracks store_fresh (Some (mktable true [])),
     ([], Raise (StoreError "relation primary_key_constraint already exists")))
  /\ create_tables (with_tracks store_fresh (Some (mktable true [])))
     = (with_tracks store_fresh (Some (mktable true [])),
        ([], Raise (StoreError "relation primary_key_constraint already exists")))
  /\ (~ exists df tdf, reaches_loader (Ok df_three_plays) true store_fresh df tdf)
  /\ (~ exists df tdf,
        reaches_loader (Ok df_three_plays) true
                       (with_tracks store_fresh (Some (mktable true []))) df tdf).
Proof.
  apply (create_tables_cannot_initialise_a_database
           store_fresh (Ok df_three_plays) true); reflexivity.
Defined.

End CreateClaims.
